(* ===== verification/_CoqProject ===== *)
-Q . S2P
Prelude.v
Request.v
Controls.v
Notify.v
ProjectCard.v
RelativeDate.v
Subscription.v
Lifecycle.v
Gateway.v
Wire.v
Store.v
App.v
Dispatch.v
FileDialog.v
Layout.v
