(* ===== verification/Prelude.v ===== *)
(** * Diva front end: a verification development

    The repository is the React/Tauri front end of Diva, a desktop tool
    that cuts a video into short clips.  The front end (three files under
    [src/src/]) lets the user pick a video, set the clip parameters, send a
    generation job to the Tauri backend, and see the known projects and the
    backend's error events.  This development models the parts of the front
    end with behaviour: state, event handlers, asynchronous calls and
    the notifications they raise.  It leaves out markup and styling.

    ** Parts of the program and how they interact

    - [App] ([App.tsx] 26-63) runs the error-listener effect and renders
      [OperationInitializer], [PreviewOperations] and one [<Toaster/>].
      All three raise their notifications into that one toaster.
    - [OperationInitializer] ([App.tsx] 76-161) keeps the form state in
      six [useState] hooks: selected file, active control, length range,
      context text, caption font and clip count.  [submitGeneration]
      (98-125) builds the request object [reqData] from that state.  It
      then awaits [invoke("generate_cuts", {reqData})] and raises a
      success or failure toast.  [handleButtonClick] (84-96) stores the
      path returned by the file dialog.
    - [VideoControls] ([actionSelector.tsx]) edits that form state.
      Four buttons toggle the active control (line 140).  The rendered
      panel (37-118) holds one widget: the length slider, the context
      textarea, the caption-font select, or the count slider.  Its
      [onValueChange] callbacks call the form's setters.
    - The error subscription ([App.tsx] 28-50) is the effect of [App].
      It calls [listen("error", cb)] asynchronously and stores the
      resulting [unlisten] in a local variable.  Its cleanup calls
      [unlisten] only if the variable is already set.  The callback
      raises one toast per event.
    - [PreviewOperations] ([App.tsx] 174-199) fetches the project list
      once, with [invoke("projects")], and keeps it as [projects].  It
      renders one [ProjectCard] per project, or a placeholder while the
      list is [undefined].
    - [ProjectCard] ([project-card.tsx]) renders one project: the status
      label and colour, the quantity text and the thumbnail fallback.
    - The toaster (sonner), the widgets (Radix, via the shadcn wrappers
      under [components/ui], not in [src/]), Tauri's IPC and the backend
      are libraries or external.  What the code relies on from them is
      modelled from their documented behaviour, and those definitions
      are marked spec_modelled in the manifest.

    ** Files, in dependency order

    - [Prelude] (this file): JavaScript helpers the code uses
      ([charAt]/[toUpperCase] capitalisation, [split]/[pop], string
      truthiness, [Number] to string, pluralisation), the promise outcome
      type [outcome], the clamp of the slider widget, the [diva] hint
      databases, the [inv_guards] tactic, and the shared lemmas on
      strings and on association lists with unique keys.
    - [Request]: the form state of [OperationInitializer] (Module [Form],
      with its setters), the request interface [GenShape] (Module [Gen]),
      [reqData], and the spec's validity predicate [valid_request].
    - [Controls]: [VideoControls] as the step function [Controls.step] on
      the form and hover state.  It covers the toggle, panel selection,
      hover, and the slider and select events, with the guard that a
      widget fires only while its panel is rendered.
      [Controls.slider_update] is Radix's clamp-write-sort value update
      with step 1.
    - [Notify]: the three toasts the code raises (title, description,
      action, duration), the action handler, a toast's lifetime, and the
      [Toaster] interface.  [Toaster] is a type class with its law
      [ToasterLaws]: a toast is appended to the shown list.
      [list_toaster] is an instance of it.
    - [ProjectCard]: the [Project] record, the three-state status, and
      the fields of a card other than its relative date.
    - [RelativeDate]: the card's relative date, date-fns'
      [formatDistanceToNow] with the en-US locale, modelled from its
      documented algorithm.  The date parser and the calendar month
      difference are parameters of a section.  An Invalid Date throws,
      and the list render of [PreviewOperations] aborts at the first
      card that throws.  This is the list view of [PreviewOperations].
    - [Subscription]: the error-listener effect as the step function
      [Subscription.step] on a world.  The world holds Tauri's listener
      registry (pairs of listener id and effect instance, in
      registration order), the next listener id, the effect instances
      with their [unlisten] variable and cleanup flag, and a toaster.
      The actions are [Mount] (the effect body starts [listen]),
      [Resolve] (that [listen] resolves and the listener is registered),
      [Cleanup] (the effect's cleanup) and [Emit] (the backend emits
      "error").
    - [Lifecycle]: the effect discipline under which the subscription
      keeps the spec's promises.  Effects mount one after another, and a
      cleanup runs only after its [listen] has resolved.  [reach_d] is
      reachability by such steps, as an inductive relation, and [single]
      is the invariant proved for it by rule induction.
    - [Gateway]: [OperationInitializer] and [PreviewOperations] as the
      step function [Gateway.step].  Its state holds the form and hover,
      the toaster, [projects], the log of commands sent and the calls in
      flight.  A submission and a fetch are each split into a start step
      (the command is sent) and a completion step (the backend's outcome
      is an input).  So completions settle in any order and interleave
      with other steps.
    - [Wire]: the [reqData] literal and the arguments of [invoke] as
      JSON values.  It follows [JSON.stringify]'s rule that a property
      whose value is [undefined] is left out.  It also models the
      backend's decoder of a [GenerationRequest], from the spec.
    - [Store]: the spec's project store as an abstract step relation
      ([StoreSpec.sstep] over [Unloaded], [Loaded] and [Stale]),
      labelled by the outcome of each settled fetch, and the spec's
      status lifecycle.  The [projects] hook driven by [Gateway.step]
      refines the store relation on the outcomes in settle order.
    - [App]: the composition.  A step is a subscription step or an
      operation step, both over one shared toaster.
    - [Dispatch]: the toasts of a whole-application run counted against
      their sources (settled submissions, emitted events).  The
      subscription steps are restricted by the discipline of
      [Lifecycle].
    - [FileDialog]: the options [handleButtonClick] passes to the
      dialog plugin's [open], and the dialog's contract from the spec
      (one path or [null], filtered to [mkv] and [mp4]).
    - [Layout]: [App]'s grid of four children ([Header],
      [OperationInitializer], [PreviewOperations], [Toaster]) with what
      each shows, and [Header], whose menu button has no handler.  A
      throw in the project list unmounts the whole tree.

    ** What the theorems show

    The manifest's claims C1-C34 are marked in the files by their ids.
    - Subscription (C1-C5):
      - the teardown race: a cleanup before [listen] resolves leaks the
        listener and later events still toast, while a cleanup after
        resolution silences them (C1);
      - one event gives exactly one toast per registered listener, with
        that listener's id and the payload (C2, spec scenario C);
      - the registry invariant holds initially and every step keeps it
        (C3);
      - cleanup after resolution unregisters (C4);
      - StrictMode's double effect toasts each event twice (C5).
    - Gateway (C6-C11, C21, C30):
      - every request sent from a reachable state is valid (C6);
      - a failed submission leaves the snapshot, form and sent log alone
        and raises one error toast (C7);
      - a success raises one success toast and sends no refresh (C8);
      - a successful fetch replaces the snapshot wholesale, a failed one
        keeps it silently (C9);
      - only a successful fetch writes the snapshot (C10);
      - the request never carries the selected file and is sent with no
        file (C11);
      - the picker shows the path's last segment (C21);
      - settling pending calls terminates: the relation "one call
        settles" is well founded, by the measure [length inflight]
        (C30).
    - Controls and Request (C12-C16):
      - the form invariant holds initially and every event keeps it
        (C12);
      - every reachable form yields a valid request (C13);
      - the builder's round trip (C14);
      - the button toggle (C15);
      - each widget event is accepted exactly while its named control is
        active (C16).
    - Notify (C17): the error toast lives 3 ms.
    - ProjectCard (C18-C20): the status labels and colours (C18);
      pluralisation (C19); the thumbnail fallback (C20).
    - App (C22): an error event and a submission completion commute;
      the toaster gains the listeners' toasts and the submission's
      toast in the order the steps ran.
    - Store (C23-C24): the [projects] hook refines the spec's store
      labelled by the fetch outcomes in settle order (C23); when two
      fetches overlap, an older snapshot that settles last replaces a
      newer one, against the status lifecycle (C24).
    - Wire (C25, C26, C29): every request the control panel can build
      goes on the wire with the literal's five keys, in order and with
      their JSON types (C25); the JSON form decodes back to the request
      exactly when both lengths are present (C26); every request a
      reachable state has sent is decoded by the backend into the
      request the form held (C29).
    - Lifecycle (C27-C28): under the effect discipline at most one
      listener is ever registered, so an event raises at most one toast
      (C27), and once every effect is cleaned up no listener is left
      (C28).  Together with C1 and C5 this shows that the missing wait
      for [listen] in the cleanup is the only source of the leaks.
    - Dates (C31-C32): one project whose date does not parse blanks the
      whole list, and otherwise every card gets its relative date
      (C31); a relative date reads "in ..." or "... ago" by the
      comparison with the clock, with a count in the range of its unit
      (C32).
    - Accounting (C33): under the effect discipline, a run of the whole
      application shows at least one toast per settled submission and
      at most one more per event.
    - File selection (C34): for every result the dialog may give under
      its contract, the handler stores exactly that result (a cancel
      clears an earlier choice), and the label shows the path's last
      segment, which ends in ".mkv" or ".mp4", or "No file selected".
    Every claim with a hypothesis has a witness lemma (suffix
    [_witness]) that applies it to a concrete state.  Witnesses
    instantiate the toaster with [list_toaster].

    ** Bounds and fuel

    No definition needs fuel.  Every handler is a single non-recursive
    step.  The recursive helpers ([split_on], [has_char], the emit fold)
    are structural.  Traces are lists of steps, run by structural
    recursion ([run]).  Integers are [Z]: the numbers the code handles
    are JavaScript numbers drawn from the slider ranges [20,180] and
    [1,24], so no machine width matters.  Tauri's listener ids are [N].
    A toast's duration is in milliseconds, as sonner reads it.
    Dates are [Z] milliseconds since the epoch.  The range of a valid
    JavaScript date (at most 8.64e15 ms from the epoch) is the parser's
    business, so [RelativeDate] needs no bound.  Its divisions are on
    non-negative differences, where [Z.div] is JavaScript's truncation.

    ** Not modelled

    Every function, handler and piece of state under [src/] is modelled.
    What is left is outside the program or has no behaviour:
    - Markup and styling: class names, icons and the static text of the
      panels.  The header's menu button and the card's play button and
      dropdown items have no handler, so they change no state.
    - [toLocaleDateString]: the date string of a toast is an input of
      the steps that need one.  [new Date(string)] and date-fns'
      [differenceInMonths] are parameters of [RelativeDate], and the
      relative date is computed in UTC (no daylight-saving offset).
    - The dialog's own user interface: only its contract on the result
      is kept.
    - The Tauri IPC transport and the backend: their outcomes and events
      are inputs of the completion and emit steps.  The backend's
      decoder is modelled from the spec ([Wire]).
    - Sonner's rendering and timers: only a toast's lifetime is kept.
    - React's rendering and scheduling beyond the interleavings the step
      functions allow.  [App] always renders [PreviewOperations], so the
      code never unmounts it while a fetch is in flight, and the spec's
      rule on results arriving after unmount has no code to model.
    - The entry point that mounts [App] (and may wrap it in StrictMode)
      is not in the repository.  The StrictMode traces (C5, C24) are
      stated as what happens when the effects run twice.

    ** Further work

    1. A decidable [wf] ([bool]) with its reflection lemma, so that
       registry witnesses evaluate by [vm_compute].
    2. A concrete ISO-8601 parser and calendar for [RelativeDate], to
       replace its two parameters. *)

From stdpp Require Export base list strings pretty sorting sets gmap.
From Stdlib Require Export ZArith Lia.
From Stdlib Require Export Ascii.

Declare Scope diva_scope.
Delimit Scope diva_scope with diva.
Open Scope diva_scope.

Create HintDb diva discriminated.
Create Rewrite HintDb diva_rw.

(** JavaScript string concatenation [a + b] on strings. *)
Infix "+++" := String.append (at level 60, right associativity) : diva_scope.

(** ** Promise outcomes

    [await invoke(...)] either resolves with a value or rejects with an
    error, which the code reads as a string. *)
Inductive outcome (A : Type) : Type :=
  | Ok (a : A)
  | Err (e : string).
Arguments Ok {A} a.
Arguments Err {A} e.

(** ** JavaScript helpers used by the code *)

(** [String(n)] of a non-negative integer: decimal digits. *)
Definition js_num (n : N) : string := pretty n.

(** [String(z)] of an integer. *)
Definition js_int (z : Z) : string := pretty z.

(** [toUpperCase] on one ASCII character. *)
Definition ascii_upper (a : Ascii.ascii) : Ascii.ascii :=
  let n := Ascii.nat_of_ascii a in
  if (97 <=? n)%nat && (n <=? 122)%nat then Ascii.ascii_of_nat (n - 32) else a.

(** [s.charAt(0).toUpperCase() + s.slice(1)]: [charAt(0)] of the empty
    string is the empty string. *)
Definition capitalize (s : string) : string :=
  match s with
  | EmptyString => EmptyString
  | String a r => String (ascii_upper a) r
  end.

(** [s.split(c)] for a one-character separator: never empty, and
    [""] splits to [[""]]. *)
Fixpoint split_on (c : Ascii.ascii) (s : string) : list string :=
  match s with
  | EmptyString => [EmptyString]
  | String a r =>
      let rest := split_on c r in
      if Ascii.eqb a c then EmptyString :: rest
      else match rest with
           | [] => [String a EmptyString]
           | h :: t => String a h :: t
           end
  end.

(** [arr.pop()] read for its value: [undefined] on an empty array. *)
Definition js_pop {A} (l : list A) : option A := last l.

(** Whether a character occurs in a string. *)
Fixpoint has_char (c : Ascii.ascii) (s : string) : bool :=
  match s with
  | EmptyString => false
  | String a r => Ascii.eqb a c || has_char c r
  end.

(** Truthiness of a string in a condition or [||]: only [""] is falsy. *)
Definition js_truthy (s : string) : bool := negb (String.eqb s "").

(** [n > 1 ? "s" : ""], the plural suffix used by both files. *)
Definition plural (n : Z) : string := if (1 <? n)%Z then "s" else "".

(** A slider clamps a raw position into [min, max]. *)
Definition clamp (lo hi v : Z) : Z := Z.max lo (Z.min hi v).

(** ** Tactics *)

(** Invert a step function's guards: a successful [Some] result fixes the
    branch of every [if] and [match] on the way. *)
Ltac inv_guards :=
  repeat match goal with
  | H : (if ?b then _ else _) = Some _ |- _ =>
      let E := fresh "E" in destruct b eqn:E; [|discriminate H]
  | H : match ?x with _ => _ end = Some _ |- _ =>
      let E := fresh "E" in destruct x eqn:E; try discriminate H
  | H : (_ && _) = true |- _ => apply andb_true_iff in H as [? ?]
  | H : bool_decide _ = true |- _ => apply bool_decide_eq_true in H
  end; simplify_eq/=.

(** ** Shared lemmas *)

Lemma clamp_bounds lo hi v : (lo <= hi)%Z -> (lo <= clamp lo hi v <= hi)%Z.
Proof. unfold clamp. lia. Qed.

Lemma clamp_id lo hi v : (lo <= v <= hi)%Z -> clamp lo hi v = v.
Proof. unfold clamp. lia. Qed.

Lemma split_on_not_nil c s : split_on c s <> [].
Proof. induction s as [|a r IH]; simpl; [done|]. destruct (Ascii.eqb a c); [done|]. by destruct (split_on c r). Qed.

Lemma split_on_no_sep c s : has_char c s = false -> split_on c s = [s].
Proof.
  induction s as [|a r IH]; simpl; [done|].
  intros [Ha Hr]%orb_false_iff. by rewrite Ha, IH.
Qed.

(** Splitting [d ++ c :: b] ends with the segments of [b], after at
    least one segment of [d]. *)
Lemma split_on_app_sep c d b :
  exists h t, split_on c (d +++ String c b) = h :: t ++ split_on c b.
Proof.
  induction d as [|a r [h [t IH]]]; simpl.
  - rewrite Ascii.eqb_refl. by exists EmptyString, [].
  - rewrite IH. destruct (Ascii.eqb a c).
    + by exists EmptyString, (h :: t).
    + by exists (String a h), t.
Qed.

(** The last segment of a path is the part after its last separator. *)
Lemma js_pop_split_last c d b :
  has_char c b = false -> js_pop (split_on c (d +++ String c b)) = Some b.
Proof.
  intros Hb. destruct (split_on_app_sep c d b) as (h & t & ->).
  rewrite (split_on_no_sep c b Hb). unfold js_pop.
  rewrite app_comm_cons, last_app. done.
Qed.

(** The segments of [s.split(c)]: the last one holds no separator, and
    [s] is either that segment alone or something, a separator and
    that segment. *)
Lemma split_on_last c s :
  exists t h, split_on c s = t ++ [h] /\ has_char c h = false /\
    ((t = [] /\ s = h) \/ (t <> [] /\ exists d, s = d +++ String c h)).
Proof.
  induction s as [|a r (t & h & IH & Hh & Hr)].
  - exists [], EmptyString. split_and!; [done|done|by left].
  - simpl. rewrite IH. destruct (Ascii.eqb a c) eqn:Ha.
    + apply Ascii.eqb_eq in Ha as ->. exists (EmptyString :: t), h.
      split_and!; [done|done|right; split; [done|]].
      destruct Hr as [[-> ->]|[_ [d ->]]]; [by exists EmptyString|by exists (String c d)].
    + destruct t as [|x t].
      * exists [], (String a h). simpl. rewrite Ha, Hh.
        split_and!; [done|done|left]. destruct Hr as [[_ ->]|[? _]]; done.
      * exists (String a x :: t), h. split_and!; [done|done|right; split; [done|]].
        destruct Hr as [[? _]|[_ [d ->]]]; [done|by exists (String a d)].
Qed.

Lemma plural_one_or_less n : (n <= 1)%Z -> plural n = "".
Proof. unfold plural. intros H. destruct (Z.ltb_spec 1 n); [lia|done]. Qed.

Lemma plural_many n : (1 < n)%Z -> plural n = "s".
Proof. unfold plural. intros H. by destruct (Z.ltb_spec 1 n); [|lia]. Qed.

#[export] Hint Resolve clamp_bounds split_on_not_nil : diva.
#[export] Hint Rewrite clamp_id split_on_no_sep using (done || lia) : diva_rw.

(** ** Association lists with unique keys *)

Section Assoc.
Context {K V : Type}.
Implicit Types (l : list (K * V)).

Lemma assoc_key_unique l a b c :
  NoDup (fst <$> l) -> (a, b) ∈ l -> (a, c) ∈ l -> b = c.
Proof.
  induction l as [|[k v] l IH]; simpl; [set_solver|].
  rewrite NoDup_cons. intros [Hk Hl] Hb Hc.
  apply elem_of_cons in Hb as [Hb|Hb], Hc as [Hc|Hc]; simplify_eq; auto.
  - destruct Hk. apply list_elem_of_fmap. by exists (k, c).
  - destruct Hk. apply list_elem_of_fmap. by exists (k, b).
Qed.

Lemma assoc_NoDup_filter (P : K * V -> Prop) `{forall x, Decision (P x)} l :
  NoDup (fst <$> l) -> NoDup (fst <$> filter P l).
Proof.
  induction l as [|[k v] l IH]; simpl; [done|].
  rewrite NoDup_cons. intros [Hk Hl]. rewrite filter_cons.
  case_decide; simpl; [|auto]. rewrite NoDup_cons. split; [|auto].
  intros Hin. apply Hk. apply list_elem_of_fmap in Hin as ([k' v'] & -> & Hin).
  apply list_elem_of_filter in Hin as [_ Hin].
  apply list_elem_of_fmap. by exists (k', v').
Qed.

Lemma assoc_NoDup_snoc l a c :
  NoDup (fst <$> l) -> (forall b, (a, b) ∉ l) -> NoDup (fst <$> l ++ [(a, c)]).
Proof.
  intros Hl Ha. rewrite fmap_app. apply NoDup_app. split_and!; [done| |by apply NoDup_singleton].
  intros x Hx. simpl. rewrite list_elem_of_singleton. intros ->.
  apply list_elem_of_fmap in Hx as ([k v] & ? & Hin). simpl in *; subst. by apply (Ha v).
Qed.
End Assoc.

(** A list with unique keys whose entries all share one key has at most
    one entry. *)
Lemma assoc_NoDup_same_key {K V} (l : list (K * V)) :
  NoDup (fst <$> l) -> (forall x y, x ∈ l -> y ∈ l -> x.1 = y.1) -> (length l <= 1)%nat.
Proof.
  destruct l as [|a [|b rest]]; simpl; [lia|lia|].
  intros Hnd Hsame. exfalso. apply NoDup_cons in Hnd as [Hn _]. apply Hn.
  rewrite (Hsame a b); [left|left|right; left].
Qed.
