(* ===== verification/Request.v ===== *)
(** * The generation request and the form it is built from

    [Form] is the state of [OperationInitializer] ([App.tsx] 77-82), one
    field per [useState] hook.  [Gen] is the request interface [GenShape]
    (17-23).  [reqData] is the object literal of [submitGeneration]
    (line 99).  The array reads [videoLength[0]] and [videoLength[1]] are
    [undefined] when the array is too short, so the two length fields are
    options.  [valid_request] is the contract of section 3 and 4.1 of the
    spec; the code itself never checks it. *)

From S2P Require Import Prelude.

Module Form.

(** The six hooks of [OperationInitializer]. *)
Record state := mkState {
  selectedFile : option string;
  activeControl : option string;
  videoLength : list Z;
  context : string;
  captionFont : string;
  videoCount : Z
}.

(** The hooks' initial values. *)
Definition init : state := {|
  selectedFile := None;
  activeControl := None;
  videoLength := [30; 180]%Z;
  context := "";
  captionFont := "default";
  videoCount := 12%Z
|}.

(** The hooks' setters, each replacing one field. *)
Definition setSelectedFile (v : option string) (f : state) : state :=
  mkState v (activeControl f) (videoLength f) (context f) (captionFont f) (videoCount f).
Definition setActiveControl (v : option string) (f : state) : state :=
  mkState (selectedFile f) v (videoLength f) (context f) (captionFont f) (videoCount f).
Definition setVideoLength (v : list Z) (f : state) : state :=
  mkState (selectedFile f) (activeControl f) v (context f) (captionFont f) (videoCount f).
Definition setContext (v : string) (f : state) : state :=
  mkState (selectedFile f) (activeControl f) (videoLength f) v (captionFont f) (videoCount f).
Definition setCaptionFont (v : string) (f : state) : state :=
  mkState (selectedFile f) (activeControl f) (videoLength f) (context f) v (videoCount f).
Definition setVideoCount (v : Z) (f : state) : state :=
  mkState (selectedFile f) (activeControl f) (videoLength f) (context f) (captionFont f) v.

End Form.

Module Gen.

(** [interface GenShape]; a length read past the end of
    [videoLength] is [undefined], here [None]. *)
Record GenShape := mkGenShape {
  minLength : option Z;
  maxLength : option Z;
  captionFont : string;
  extraContext : string;
  quantity : Z
}.

End Gen.

(** The values offered by the caption-font select (the [SelectItem]s of
    [actionSelector.tsx]). *)
Definition caption_fonts : list string :=
  ["none"; "default"; "arial"; "helvetica"; "times"].

(** [const reqData = { captionFont, extraContext: context,
    maxLength: videoLength[1], minLength: videoLength[0],
    quantity: videoCount }]. *)
Definition reqData (f : Form.state) : Gen.GenShape := {|
  Gen.captionFont := Form.captionFont f;
  Gen.extraContext := Form.context f;
  Gen.maxLength := Form.videoLength f !! 1%nat;
  Gen.minLength := Form.videoLength f !! 0%nat;
  Gen.quantity := Form.videoCount f
|}.

(** The request invariant of the spec: both lengths present,
    [20 <= minLength <= maxLength <= 180], [1 <= quantity <= 24], and the
    font one of the enumerated set. *)
Definition valid_request (r : Gen.GenShape) : bool :=
  match Gen.minLength r, Gen.maxLength r with
  | Some lo, Some hi =>
      (20 <=? lo)%Z && (lo <=? hi)%Z && (hi <=? 180)%Z &&
      (1 <=? Gen.quantity r)%Z && (Gen.quantity r <=? 24)%Z &&
      bool_decide (Gen.captionFont r ∈ caption_fonts)
  | _, _ => false
  end.

(** The form invariant the controls maintain: exactly two lengths, in
    order and in the slider's range, a count in the count slider's range,
    and a font the select offers. *)
Definition form_ok (f : Form.state) : Prop :=
  (exists lo hi, Form.videoLength f = [lo; hi] /\ (20 <= lo <= hi)%Z /\ (hi <= 180)%Z) /\
  (1 <= Form.videoCount f <= 24)%Z /\
  Form.captionFont f ∈ caption_fonts.

(** The invariant does not mention the selected file, the active
    control or the context text. *)
Definition form_shape_eq (f g : Form.state) : Prop :=
  Form.videoLength f = Form.videoLength g /\ Form.videoCount f = Form.videoCount g /\
  Form.captionFont f = Form.captionFont g.

Lemma form_ok_init : form_ok Form.init.
Proof.
  unfold form_ok; cbn. split; [exists 30%Z, 180%Z; repeat split; lia|].
  split; [lia|]. set_solver.
Qed.

(** [reqData] reads exactly the two slider values, the count, the font
    and the context. *)
Lemma reqData_fields f lo hi :
  Form.videoLength f = [lo; hi] ->
  reqData f = Gen.mkGenShape (Some lo) (Some hi) (Form.captionFont f) (Form.context f) (Form.videoCount f).
Proof. intros H. unfold reqData. by rewrite H. Qed.

Lemma valid_request_spec r :
  valid_request r = true <->
  exists lo hi, Gen.minLength r = Some lo /\ Gen.maxLength r = Some hi /\
    (20 <= lo <= hi)%Z /\ (hi <= 180)%Z /\ (1 <= Gen.quantity r <= 24)%Z /\
    Gen.captionFont r ∈ caption_fonts.
Proof.
  unfold valid_request. destruct (Gen.minLength r) as [lo|], (Gen.maxLength r) as [hi|];
    split; try (intros (? & ? & ? & ? & _); congruence); try discriminate.
  - rewrite !andb_true_iff, !Z.leb_le, bool_decide_eq_true.
    intros [[[[[? ?] ?] ?] ?] ?]. exists lo, hi. split_and!; auto; lia.
  - intros (lo' & hi' & [= <-] & [= <-] & ? & ? & ? & ?).
    rewrite !andb_true_iff, !Z.leb_le, bool_decide_eq_true. split_and!; auto; lia.
Qed.

Lemma form_ok_shape f g : form_shape_eq f g -> form_ok f -> form_ok g.
Proof. intros (Hl & Hc & Hf) (H1 & H2 & H3). unfold form_ok. rewrite <- Hl, <- Hc, <- Hf. auto. Qed.

#[export] Hint Resolve form_ok_init form_ok_shape : diva.

(** Every well-formed form yields a valid request carrying the slider
    values unchanged. *)
Lemma form_ok_request_valid f :
  form_ok f ->
  valid_request (reqData f) = true /\
  exists lo hi, Form.videoLength f = [lo; hi] /\
    Gen.minLength (reqData f) = Some lo /\ Gen.maxLength (reqData f) = Some hi /\
    Gen.quantity (reqData f) = Form.videoCount f.
Proof.
  intros Hok. pose proof Hok as ((lo & hi & Hl & ? & ?) & ? & ?).
  rewrite (reqData_fields f lo hi Hl). split.
  - apply valid_request_spec. exists lo, hi. simpl. split_and!; auto; lia.
  - by exists lo, hi.
Qed.

(** C14: round trip of the builder.  For a form whose length range is
    [lo, hi] with [20 <= lo <= hi <= 180], whose count is in [1,24] and
    whose font is one the select offers, [reqData] carries exactly these
    values, plus the context text, and is a valid request. *)
Theorem reqData_roundtrip f lo hi :
  Form.videoLength f = [lo; hi] -> (20 <= lo <= hi)%Z -> (hi <= 180)%Z ->
  (1 <= Form.videoCount f <= 24)%Z -> Form.captionFont f ∈ caption_fonts ->
  reqData f = Gen.mkGenShape (Some lo) (Some hi) (Form.captionFont f) (Form.context f) (Form.videoCount f) /\
  valid_request (reqData f) = true.
Proof.
  intros Hl Hlo Hhi Hc Hf. rewrite (reqData_fields f lo hi Hl). split; [done|].
  apply valid_request_spec. exists lo, hi. simpl. split_and!; auto; lia.
Qed.

(** The initial form of the code, through the round trip. *)
Lemma reqData_roundtrip_witness :
  reqData Form.init = Gen.mkGenShape (Some 30%Z) (Some 180%Z) "default" "" 12%Z /\
  valid_request (reqData Form.init) = true.
Proof.
  apply (reqData_roundtrip Form.init 30 180);
    [reflexivity|simpl; lia|lia|simpl; lia|repeat constructor].
Defined.
