(* ===== verification/Controls.v ===== *)
(** * VideoControls ([actionSelector.tsx])

    The control panel edits the form state of [OperationInitializer]
    through the setters it receives as props.  Its own state is
    [hoveredControl] (line 34).  [step] runs one user event.  It returns
    [None] when the event cannot happen in the rendered UI: a widget that
    is not on screen cannot fire, and the select only offers its items.
    The widgets are the shadcn wrappers of Radix under [components/ui]
    (not in [src/]).  [slider_update] models Radix's value update: the
    moved thumb's value is clamped into the range and the values are
    sorted, which is Radix's [getNextSortedValues] with step 1. *)

From S2P Require Import Prelude Request.

Module Controls.

(** [controlButtons] (120-125), by name, in order. *)
Definition controlButtons : list string := ["length"; "context"; "captions"; "amount"].

(** The five branches of [renderControlPanel] (37-118). *)
Inductive panel := PanelLength | PanelContext | PanelCaptions | PanelAmount | PanelDefault.

#[export] Instance panel_eq_dec : EqDecision panel.
Proof. solve_decision. Defined.

Definition renderControlPanel (activeControl : option string) : panel :=
  match activeControl with
  | Some "length" => PanelLength
  | Some "context" => PanelContext
  | Some "captions" => PanelCaptions
  | Some "amount" => PanelAmount
  | _ => PanelDefault
  end.

(** The button's [onClick] (line 140):
    [setActiveControl(activeControl === button.name ? null : button.name)]. *)
Definition toggleControl (activeControl : option string) (name : string) : option string :=
  if bool_decide (activeControl = Some name) then None else Some name.

(** Radix slider update with step 1: clamp the moved thumb into
    [min, max], write it at the thumb's index, sort. *)
Definition slider_update (min max : Z) (values : list Z) (thumb : nat) (raw : Z) : list Z :=
  merge_sort Z.le (<[thumb := clamp min max raw]> values).

(** The panel state: the form (owned by the parent) and the hover. *)
Record ui := mkUi { form : Form.state; hoveredControl : option string }.

Definition init : ui := mkUi Form.init None.

(** The user events the component handles. *)
Inductive event :=
  | Click (name : string)
  | MouseEnter (name : string)
  | MouseLeave (name : string)
  | SlideLength (thumb : nat) (raw : Z)
  | TypeContext (text : string)
  | PickFont (value : string)
  | SlideCount (raw : Z).

Definition on_panel (u : ui) (p : panel) : bool :=
  bool_decide (renderControlPanel (Form.activeControl (form u)) = p).

Definition with_form (u : ui) (g : Form.state -> Form.state) : ui :=
  mkUi (g (form u)) (hoveredControl u).

(** One event.  Buttons exist for the four names only.  The length slider
    (45-51) has one thumb per [defaultValue] entry.  The count slider
    (96-102) calls [setVideoCount(e[0])]; [None] if that read were
    [undefined] (it never is, see [count_slider_defined]). *)
Definition step (u : ui) (e : event) : option ui :=
  let f := form u in
  match e with
  | Click n =>
      if bool_decide (n ∈ controlButtons)
      then Some (with_form u (Form.setActiveControl (toggleControl (Form.activeControl f) n)))
      else None
  | MouseEnter n =>
      if bool_decide (n ∈ controlButtons) then Some (mkUi f (Some n)) else None
  | MouseLeave n =>
      if bool_decide (n ∈ controlButtons) then Some (mkUi f None) else None
  | SlideLength i raw =>
      if on_panel u PanelLength && bool_decide (i < length (Form.videoLength f))%nat
      then Some (with_form u (Form.setVideoLength
                                (slider_update 20 180 (Form.videoLength f) i raw)))
      else None
  | TypeContext s =>
      if on_panel u PanelContext then Some (with_form u (Form.setContext s)) else None
  | PickFont v =>
      if on_panel u PanelCaptions && bool_decide (v ∈ caption_fonts)
      then Some (with_form u (Form.setCaptionFont v))
      else None
  | SlideCount raw =>
      if on_panel u PanelAmount then
        match slider_update 1 24 [Form.videoCount f] 0 raw !! 0%nat with
        | Some c => Some (with_form u (Form.setVideoCount c))
        | None => None
        end
      else None
  end.

(** A sequence of events, stopping at the first impossible one. *)
Fixpoint run (u : ui) (es : list event) : option ui :=
  match es with
  | [] => Some u
  | e :: es' => match step u e with Some u' => run u' es' | None => None end
  end.

(** The panel each button opens. *)
Definition button_panel (n : string) : panel := renderControlPanel (Some n).

(** The count-slider label (line 105). *)
Definition count_label (videoCount : Z) : string :=
  "Generate " +++ js_int videoCount +++ " video" +++ plural videoCount.

(** ** Lemmas on the slider *)

Lemma slider_update_two lo hi a b i raw :
  (lo <= hi)%Z -> (lo <= a <= hi)%Z -> (lo <= b <= hi)%Z -> (i < 2)%nat ->
  exists x y, slider_update lo hi [a; b] i raw = [x; y] /\ (lo <= x <= y)%Z /\ (y <= hi)%Z.
Proof.
  intros Hlh Ha Hb Hi. unfold slider_update.
  set (l := <[i := clamp lo hi raw]> [a; b]).
  assert (Hin : Forall (fun z => lo <= z <= hi)%Z l).
  { pose proof (clamp_bounds lo hi raw Hlh).
    subst l; destruct i as [|[|i]]; [| |lia]; simpl; repeat constructor; lia. }
  assert (Hlen : length l = 2%nat) by (subst l; by rewrite length_insert).
  assert (Hmem : forall z, z ∈ merge_sort Z.le l -> (lo <= z <= hi)%Z).
  { intros z Hz. rewrite Forall_forall in Hin. apply Hin.
    by rewrite <- (merge_sort_Permutation Z.le l). }
  pose proof (Permutation_length (merge_sort_Permutation Z.le l)) as Hp.
  pose proof (Sorted_merge_sort Z.le l) as Hs.
  destruct (merge_sort Z.le l) as [|x [|y [|z t]]]; simpl in Hp; try lia.
  assert (Hx := Hmem x ltac:(repeat constructor)).
  assert (Hy := Hmem y ltac:(repeat constructor)).
  apply Sorted_inv in Hs as [_ Hh]. inversion Hh; subst.
  exists x, y. split_and!; [done|lia|done|lia].
Qed.

Lemma slider_update_one lo hi c raw :
  (lo <= hi)%Z -> slider_update lo hi [c] 0 raw = [clamp lo hi raw].
Proof. intros _. reflexivity. Qed.

End Controls.

Section ControlsTheorems.
Import Controls.

Lemma count_slider_value c raw :
  slider_update 1 24 [c] 0 raw !! 0%nat = Some (clamp 1 24 raw).
Proof. reflexivity. Qed.

Lemma step_hover_form u e u' :
  step u e = Some u' -> (exists n, e = MouseEnter n \/ e = MouseLeave n) -> form u' = form u.
Proof. intros H [n [-> | ->]]; simpl in H; inv_guards; done. Qed.

(** Every control event keeps the form well formed. *)
Lemma step_form_ok u e u' :
  form_ok (form u) -> step u e = Some u' -> form_ok (form u').
Proof.
  intros Hok H. pose proof Hok as ((lo & hi & Hl & ? & ?) & Hc & Hf).
  destruct e; simpl in H; inv_guards; simpl; try done.
  - (* length slider *)
    rewrite Hl in *. simpl in *.
    destruct (slider_update_two 20 180 lo hi thumb raw) as (x & y & Hx & ? & ?); try lia.
    unfold form_ok; simpl. rewrite Hx. split; [exists x, y; auto|auto].
  - (* caption select *)
    unfold form_ok; simpl. split_and!; eauto; lia.
  - (* count slider *)
    pose proof (clamp_bounds 1 24 raw). unfold form_ok; simpl. split_and!; eauto; lia.
Qed.

Lemma run_form_ok u es u' : form_ok (form u) -> run u es = Some u' -> form_ok (form u').
Proof.
  revert u. induction es as [|e es IH]; simpl; intros u Hok H; [by simplify_eq|].
  destruct (step u e) eqn:Hs; [|discriminate]. eauto using step_form_ok.
Qed.

(** C13: from the initial UI, whatever the user does with the controls,
    [submitGeneration] would build a valid request. *)
Theorem reachable_request_valid es u :
  run init es = Some u -> valid_request (reqData (form u)) = true.
Proof. intros H. apply form_ok_request_valid, (run_form_ok init es); [apply form_ok_init|done]. Qed.

(** C12: the form invariant of the control panel: the initial form is well
    formed (two sorted lengths in [20,180], a count in [1,24], a font the
    select offers) and every control event keeps it so. *)
Theorem form_invariant :
  form_ok (form init) /\ (forall u e u', form_ok (form u) -> step u e = Some u' -> form_ok (form u')).
Proof. split; [apply form_ok_init|apply step_form_ok]. Qed.

(** C15: a control button toggles: it opens its own panel, or closes it
    when it is already open. *)
Theorem click_toggles u n :
  n ∈ controlButtons ->
  exists u', step u (Click n) = Some u' /\
    renderControlPanel (Form.activeControl (form u')) =
      (if bool_decide (Form.activeControl (form u) = Some n) then PanelDefault else button_panel n) /\
    button_panel n <> PanelDefault.
Proof.
  intros Hn. simpl. rewrite bool_decide_eq_true_2 by done.
  eexists; split; [done|]. unfold toggleControl; simpl.
  split; [by case_bool_decide|].
  unfold controlButtons in Hn. repeat (apply elem_of_cons in Hn as [->|Hn]; [done|]).
  by apply elem_of_nil in Hn.
Qed.

(** Which control name shows which panel: the cases of the switch. *)
Lemma renderControlPanel_inv ac :
  (renderControlPanel ac = PanelLength <-> ac = Some "length") /\
  (renderControlPanel ac = PanelContext <-> ac = Some "context") /\
  (renderControlPanel ac = PanelCaptions <-> ac = Some "captions") /\
  (renderControlPanel ac = PanelAmount <-> ac = Some "amount").
Proof.
  split_and!; (split; [|by intros ->]); unfold renderControlPanel;
    repeat case_match; intros; simplify_eq; done.
Qed.

(** C16: each widget event is accepted exactly while its control is the
    active one: the length slider under "length" (for an existing
    thumb), the textarea under "context", the font select under
    "captions" (for one of its items), and the count slider under
    "amount".  A switch that showed a widget under another case, or a
    handler without the panel's guard, fails it. *)
Theorem widget_needs_panel u :
  (forall i raw, is_Some (step u (SlideLength i raw)) <->
     Form.activeControl (form u) = Some "length" /\ (i < length (Form.videoLength (form u)))%nat) /\
  (forall t, is_Some (step u (TypeContext t)) <-> Form.activeControl (form u) = Some "context") /\
  (forall v, is_Some (step u (PickFont v)) <->
     Form.activeControl (form u) = Some "captions" /\ v ∈ caption_fonts) /\
  (forall raw, is_Some (step u (SlideCount raw)) <-> Form.activeControl (form u) = Some "amount").
Proof.
  destruct (renderControlPanel_inv (Form.activeControl (form u))) as (HL & HC & HF & HA).
  unfold step, on_panel.
  split_and!; intros; rewrite ?count_slider_value, <- ?HL, <- ?HC, <- ?HF, <- ?HA;
    repeat case_bool_decide; simpl;
    (split; [intros [? Hx]; try discriminate; tauto | intros; first [tauto | by eexists]]).
Qed.

End ControlsTheorems.

Section ControlsWitnesses.
Import Controls.

(** Widen and narrow the range past both ends, raise the count past 24,
    pick a font: the request is still valid. *)
Lemma reachable_request_valid_witness :
  exists u, run init [Click "length"; SlideLength 0 250; SlideLength 1 5; Click "amount";
                      SlideCount 99; Click "captions"; PickFont "arial"] = Some u /\
            valid_request (reqData (form u)) = true.
Proof.
  eexists. split; [reflexivity|].
  apply (reachable_request_valid [Click "length"; SlideLength 0 250; SlideLength 1 5; Click "amount";
                                  SlideCount 99; Click "captions"; PickFont "arial"]).
  reflexivity.
Defined.

Lemma click_toggles_witness :
  exists u', step init (Click "amount") = Some u' /\
             renderControlPanel (Form.activeControl (form u')) = PanelAmount.
Proof.
  assert (Hn : "amount" ∈ controlButtons) by (repeat constructor).
  destruct (click_toggles init "amount" Hn) as (u' & H1 & H2 & _).
  exists u'. split; [exact H1|]. rewrite H2. reflexivity.
Defined.

Lemma widget_needs_panel_witness :
  is_Some (step (mkUi (Form.setActiveControl (Some "captions") Form.init) None) (PickFont "times")) /\
  ~ is_Some (step (mkUi (Form.setActiveControl (Some "amount") Form.init) None) (SlideLength 0 60)).
Proof.
  split.
  - apply (widget_needs_panel (mkUi (Form.setActiveControl (Some "captions") Form.init) None)).
    split; [reflexivity|]. repeat constructor.
  - rewrite (proj1 (widget_needs_panel (mkUi (Form.setActiveControl (Some "amount") Form.init) None)) 0%nat 60%Z).
    intros [Ha _]. discriminate.
Defined.

Lemma form_invariant_witness :
  exists u', step init (Click "length") = Some u' /\ form_ok (form u').
Proof.
  eexists. split; [reflexivity|].
  apply (proj2 form_invariant init (Click "length")); [exact (proj1 form_invariant)|reflexivity].
Defined.

End ControlsWitnesses.
