(* ===== verification/Notify.v ===== *)
(** * Notifications: the toasts the code raises

    The code raises three toasts with sonner's [toast(title, options)]:
    - the error-event toast of the listener ([App.tsx] 36-43);
    - the submission-success toast (103-109);
    - the submission-failure toast (113-121).
    Each has a title, a description, an action button whose [onClick] is
    [console.log("Not yet implemented")], and at most one explicit
    [duration].  The toaster itself is a library.  [Toaster] states what
    the code relies on (a toast is appended to the list of shown toasts),
    and [list_toaster] implements it.  Sonner reads [duration] in
    milliseconds and uses 4000 when it is absent. *)

From S2P Require Import Prelude.

Module Notify.

(** What an action's [onClick] does: only [console.log] of this text. *)
Inductive action_effect := LogNotImplemented.

Record action := mkAction { label : string; onClick : action_effect }.

(** A description is a plain string or a [<div>] of [<span>]s. *)
Inductive description :=
  | DescText (s : string)
  | DescSpans (spans : list string).

Record toast := mkToast {
  title : string;
  desc : description;
  act : option action;
  duration : option Z
}.

#[export] Instance action_effect_eq_dec : EqDecision action_effect.
Proof. solve_decision. Defined.
#[export] Instance action_eq_dec : EqDecision action.
Proof. solve_decision. Defined.
#[export] Instance description_eq_dec : EqDecision description.
Proof. solve_decision. Defined.
#[export] Instance toast_eq_dec : EqDecision toast.
Proof. solve_decision. Defined.

(** The error listener's toast: [toast(id + "Internal System Error",
    {description: <div><span>{data}</span><span>{date}</span></div>,
    action: {label: "Retry", ...}, duration: 3})]. *)
Definition listenerToast (id : N) (data date : string) : toast := {|
  title := js_num id +++ "Internal System Error";
  desc := DescSpans [data; date];
  act := Some (mkAction "Retry" LogNotImplemented);
  duration := Some 3%Z
|}.

(** [toast("Video creation process initialized!", {description: date,
    action: {label: "Cancel", ...}})]. *)
Definition submitOkToast (date : string) : toast := {|
  title := "Video creation process initialized!";
  desc := DescText date;
  act := Some (mkAction "Cancel" LogNotImplemented);
  duration := None
|}.

(** [toast("Internal System Error", {description: <div><span></span>
    <span>{error}</span><span>{date}</span></div>, action: Retry})]. *)
Definition submitErrToast (err date : string) : toast := {|
  title := "Internal System Error";
  desc := DescSpans [""; err; date];
  act := Some (mkAction "Retry" LogNotImplemented);
  duration := None
|}.

(** Sonner's default lifetime of a toast, in milliseconds. *)
Definition default_duration : Z := 4000.

Definition lifetime (t : toast) : Z := default (default_duration) (duration t).

(** A toast raised at [created] is on screen at [now] while its
    lifetime has not elapsed. *)
Definition visible (t : toast) (created now : Z) : bool :=
  (created <=? now)%Z && (now - created <? lifetime t)%Z.

(** Running an action on the application state [s]: the state is
    returned with the console lines the handler prints. *)
Definition run_action {S} (a : action) (s : S) : S * list string :=
  match onClick a with
  | LogNotImplemented => (s, ["Not yet implemented"])
  end.

(** ** The toaster interface *)

Class Toaster (T : Type) := {
  toaster_empty : T;
  toast_push : toast -> T -> T;
  shown : T -> list toast
}.

Class ToasterLaws (T : Type) `{Toaster T} := {
  shown_empty : shown toaster_empty = [];
  shown_push t s : shown (toast_push t s) = shown s ++ [t]
}.

#[export] Instance list_toaster : Toaster (list toast) := {|
  toaster_empty := [];
  toast_push t s := s ++ [t];
  shown s := s
|}.

#[export] Instance list_toaster_laws : ToasterLaws (list toast).
Proof. split; done. Qed.

End Notify.

Section NotifyTheorems.
Import Notify.

Lemma visible_iff t created now :
  visible t created now = true <-> (created <= now < created + lifetime t)%Z.
Proof. unfold visible. rewrite andb_true_iff, Z.leb_le, Z.ltb_lt. lia. Qed.

(** C17: the listener's error toast is on screen for 3 milliseconds only
    (sonner reads [duration: 3] in milliseconds), while the submission
    toasts keep sonner's 4000 ms default. *)
Theorem listener_toast_lifetime id data date err created now :
  (visible (listenerToast id data date) created now = true <-> (created <= now < created + 3)%Z) /\
  lifetime (submitOkToast date) = 4000%Z /\ lifetime (submitErrToast err date) = 4000%Z.
Proof. split_and!; [apply visible_iff|done|done]. Qed.

End NotifyTheorems.

Section NotifyWitnesses.
Import Notify.


End NotifyWitnesses.
