(* ===== verification/ProjectCard.v ===== *)
(** * Projects and their cards ([project-card.tsx], [App.tsx] 164-171)

    [Project] is the interface that both files declare.  [status] is the
    union of its three string literals ([project_status]).  [render]
    computes the fields a card shows from a project, all but the
    relative date of line 59.  That date, the throw of an invalid date,
    and the list view of [PreviewOperations] are in [RelativeDate]. *)

From S2P Require Import Prelude.

Module ProjectCard.

Inductive project_status := Completed | Processing | Failed.

#[export] Instance status_eq_dec : EqDecision project_status.
Proof. solve_decision. Defined.

(** The string literal each status is on the wire. *)
Definition status_str (s : project_status) : string :=
  match s with
  | Completed => "completed"
  | Processing => "processing"
  | Failed => "failed"
  end.

Record Project := mkProject {
  id : string;
  fileName : string;
  thumbnail : string;
  quantity : Z;
  date : string;
  status : project_status
}.

(** [project.thumbnail || "/placeholder.svg"] (line 21). *)
Definition thumbnail_src (p : Project) : string :=
  if js_truthy (thumbnail p) then thumbnail p else "/placeholder.svg".

(** [{quantity} video{quantity > 1 ? "s" : ""} generated] (line 37). *)
Definition quantity_text (p : Project) : string :=
  js_int (quantity p) +++ " video" +++ plural (quantity p) +++ " generated".

(** The colour chain of lines 62-68. *)
Definition status_class (p : Project) : string :=
  if String.eqb (status_str (status p)) "completed" then "text-green-500"
  else if String.eqb (status_str (status p)) "processing" then "text-blue-500"
  else "text-destructive".

(** [status.charAt(0).toUpperCase() + status.slice(1)] (line 70). *)
Definition status_label (p : Project) : string := capitalize (status_str (status p)).

(** What one card shows. *)
Record card := mkCard {
  card_img : string;
  card_alt : string;
  card_heading : string;
  card_quantity : string;
  card_status_class : string;
  card_status_label : string
}.

Definition render (p : Project) : card := {|
  card_img := thumbnail_src p;
  card_alt := fileName p;
  card_heading := fileName p;
  card_quantity := quantity_text p;
  card_status_class := status_class p;
  card_status_label := status_label p
|}.

End ProjectCard.

Section ProjectCardTheorems.
Import ProjectCard.

(** C18: each status gets its capitalised label ("Completed",
    "Processing", "Failed") and its own colour class. *)
Theorem status_rendering p :
  (status p = Completed -> status_label p = "Completed" /\ status_class p = "text-green-500") /\
  (status p = Processing -> status_label p = "Processing" /\ status_class p = "text-blue-500") /\
  (status p = Failed -> status_label p = "Failed" /\ status_class p = "text-destructive").
Proof. unfold status_label, status_class. split_and!; intros ->; done. Qed.

(** C19: the quantity text says "video" for 0 and 1 and "videos" above 1
    (so a zero quantity reads "0 video generated"). *)
Theorem quantity_text_plural p :
  quantity_text p =
    js_int (quantity p) +++ (if (quantity p <=? 1)%Z then " video generated" else " videos generated").
Proof.
  unfold quantity_text. destruct (Z.leb_spec (quantity p) 1).
  - by rewrite plural_one_or_less.
  - by rewrite plural_many.
Qed.

(** C20: an empty thumbnail falls back to the placeholder image; any other
    is used as given. *)
Theorem thumbnail_fallback p :
  thumbnail_src p = (if String.eqb (thumbnail p) "" then "/placeholder.svg" else thumbnail p).
Proof. unfold thumbnail_src, js_truthy. by destruct (String.eqb (thumbnail p) ""). Qed.

End ProjectCardTheorems.
