(* ===== verification/RelativeDate.v ===== *)
(** * The relative date of a project card ([project-card.tsx] 59)

    A card shows
    [formatDistanceToNow(new Date(project.date), { addSuffix: true })].
    [new Date] parses the backend's string.  An unparsable string gives
    an Invalid Date, and then [formatDistanceToNow] throws
    [RangeError("Invalid time value")].  The throw happens while
    [PreviewOperations] renders its list, and no error boundary catches
    it.  [render_all] is the [projects.map] of [App.tsx] 190-192 with
    that effect: the first card that throws aborts the whole list.

    [formatDistance] is date-fns' algorithm with the en-US locale, in
    UTC.  The difference is rounded to minutes with [Math.round], and
    the minutes select a token and a count.  Two library functions are
    parameters of the section: the date parser, and the calendar month
    difference [differenceInMonths] used beyond two months.  So the
    theorems hold for any parser and any calendar.  Times are
    milliseconds since the epoch, as [Date.getTime] returns them. *)

From S2P Require Import Prelude ProjectCard.

Module RelativeDate.
Import ProjectCard.

(** The constants of date-fns. *)
Definition minutesInDay : Z := 1440.
Definition minutesInAlmostTwoDays : Z := 2520.
Definition minutesInMonth : Z := 43200.

(** [Math.round(n / d)] for [n >= 0] and [d > 0]: [floor(n/d + 1/2)]. *)
Definition round_div (n d : Z) : Z := (2 * n + d) / (2 * d).

(** The locale tokens [formatDistance] can select. *)
Inductive token :=
  | LessThanXMinutes | XMinutes | AboutXHours | XDays
  | AboutXMonths | XMonths | AboutXYears | OverXYears | AlmostXYears.

(** The en-US [formatDistanceLocale]: the [one] form for a count of 1,
    the [other] form with [{{count}}] replaced otherwise. *)
Definition locale_words (t : token) (count : Z) : string :=
  let one := bool_decide (count = 1%Z) in
  let n := js_int count in
  match t with
  | LessThanXMinutes => if one then "less than a minute" else "less than " +++ n +++ " minutes"
  | XMinutes => if one then "1 minute" else n +++ " minutes"
  | AboutXHours => if one then "about 1 hour" else "about " +++ n +++ " hours"
  | XDays => if one then "1 day" else n +++ " days"
  | AboutXMonths => if one then "about 1 month" else "about " +++ n +++ " months"
  | XMonths => if one then "1 month" else n +++ " months"
  | AboutXYears => if one then "about 1 year" else "about " +++ n +++ " years"
  | OverXYears => if one then "over 1 year" else "over " +++ n +++ " years"
  | AlmostXYears => if one then "almost 1 year" else "almost " +++ n +++ " years"
  end.

(** The branch chain of [formatDistance] ([includeSeconds] unset). *)
Definition distance_token (minutes months : Z) : token * Z :=
  if (minutes <? 2)%Z then
    (if (minutes =? 0)%Z then (LessThanXMinutes, 1%Z) else (XMinutes, minutes))
  else if (minutes <? 45)%Z then (XMinutes, minutes)
  else if (minutes <? 90)%Z then (AboutXHours, 1%Z)
  else if (minutes <? minutesInDay)%Z then (AboutXHours, round_div minutes 60)
  else if (minutes <? minutesInAlmostTwoDays)%Z then (XDays, 1%Z)
  else if (minutes <? minutesInMonth)%Z then (XDays, round_div minutes minutesInDay)
  else if (minutes <? 2 * minutesInMonth)%Z then (AboutXMonths, round_div minutes minutesInMonth)
  else if (months <? 12)%Z then (XMonths, round_div minutes minutesInMonth)
  else
    let r := (months mod 12)%Z in
    let years := (months / 12)%Z in
    if (r <? 3)%Z then (AboutXYears, years)
    else if (r <? 9)%Z then (OverXYears, years)
    else (AlmostXYears, years + 1)%Z.

Section Library.
(** [differenceInMonths(later, earlier)]: whole calendar months. *)
Variable calendar_months : Z -> Z -> Z.

(** [formatDistance(date, base, { addSuffix: true })] for valid dates:
    the later and earlier of the two, the whole seconds between them,
    the rounded minutes, the token, and the suffix by the comparison. *)
Definition formatDistance (date base : Z) : string :=
  let future := (base <? date)%Z in
  let later := if future then date else base in
  let earlier := if future then base else date in
  let seconds := ((later - earlier) / 1000)%Z in
  let minutes := round_div seconds 60 in
  let '(t, c) := distance_token minutes (calendar_months later earlier) in
  if future then "in " +++ locale_words t c else locale_words t c +++ " ago".

(** [formatDistanceToNow]: an Invalid Date ([None]) throws. *)
Definition formatDistanceToNow (now : Z) (d : option Z) : outcome string :=
  match d with
  | Some t => Ok (formatDistance t now)
  | None => Err "Invalid time value"
  end.

(** [new Date(s).getTime()]: [None] for an Invalid Date. *)
Variable parse_date : string -> option Z.

(** Line 59 of the card. *)
Definition date_cell (now : Z) (p : Project) : outcome string :=
  formatDistanceToNow now (parse_date (date p)).

(** A whole card: the fields of [render] and the relative date. *)
Definition render_dated (now : Z) (p : Project) : outcome (card * string) :=
  match date_cell now p with
  | Ok s => Ok (render p, s)
  | Err e => Err e
  end.

(** [projects.map(...)]: cards in order; the first throw aborts. *)
Fixpoint render_all (now : Z) (ps : list Project) : outcome (list (card * string)) :=
  match ps with
  | [] => Ok []
  | p :: rest =>
      match render_dated now p with
      | Err e => Err e
      | Ok c =>
          match render_all now rest with
          | Ok cs => Ok (c :: cs)
          | Err e => Err e
          end
      end
  end.

Inductive dated_view :=
  | DPlaceholder (text : string)
  | DCards (cards : list (nat * (card * string))).

(** The scroll area of [PreviewOperations] with the dates: it renders,
    or the render throws. *)
Definition preview_dated (now : Z) (projects : option (list Project)) : outcome dated_view :=
  match projects with
  | None => Ok (DPlaceholder "Create a project...")
  | Some ps =>
      match render_all now ps with
      | Ok cs => Ok (DCards (imap pair cs))
      | Err e => Err e
      end
  end.

End Library.

(** The range of the count each token can carry. *)
Definition count_ok (t : token) (c : Z) : Prop :=
  match t with
  | LessThanXMinutes => c = 1%Z
  | XMinutes => (1 <= c <= 44)%Z
  | AboutXHours => (1 <= c <= 24)%Z
  | XDays => (1 <= c <= 30)%Z
  | AboutXMonths => (1 <= c <= 2)%Z
  | XMonths => (2 <= c)%Z
  | AboutXYears | OverXYears => (1 <= c)%Z
  | AlmostXYears => (2 <= c)%Z
  end.

(** For examples: a parser that knows one ISO date (2026-11-01T00:00:00Z) and a
    calendar that counts 30-day months. *)
Definition iso_one (s : string) : option Z :=
  if String.eqb s "2026-11-01T00:00:00Z" then Some 1793491200000%Z else None.
Definition months30 (later earlier : Z) : Z := ((later - earlier) / 2592000000)%Z.

End RelativeDate.

Section RelativeDateTheorems.
Import ProjectCard RelativeDate.
Context (calendar_months : Z -> Z -> Z) (parse_date : string -> option Z).

Lemma round_div_range n d lo hi :
  (0 < d)%Z -> (lo * (2 * d) <= 2 * n + d)%Z -> (2 * n + d < (hi + 1) * (2 * d))%Z ->
  (lo <= round_div n d <= hi)%Z.
Proof.
  intros Hd Hlo Hhi. unfold round_div. split.
  - apply Z.div_le_lower_bound; lia.
  - apply Z.lt_succ_r, Z.div_lt_upper_bound; lia.
Qed.

Lemma round_div_nonneg n d : (0 <= n)%Z -> (0 < d)%Z -> (0 <= round_div n d)%Z.
Proof. intros. unfold round_div. apply Z.div_pos; lia. Qed.

(** Every branch of [formatDistance] carries a count in its range. *)
Lemma distance_token_bounds m months :
  (0 <= m)%Z -> count_ok (distance_token m months).1 (distance_token m months).2.
Proof.
  intros Hm. unfold distance_token, minutesInDay, minutesInAlmostTwoDays, minutesInMonth.
  repeat (case Z.ltb_spec; intros); try (case Z.eqb_spec; intros); simpl;
    try lia; try (apply round_div_range; lia).
  - assert (2 <= round_div m 43200)%Z by (unfold round_div; apply Z.div_le_lower_bound; lia). lia.
  - apply Z.div_le_lower_bound; lia.
  - apply Z.div_le_lower_bound; lia.
  - assert (1 <= months / 12)%Z by (apply Z.div_le_lower_bound; lia). lia.
Qed.

Lemma render_all_err now ps e :
  render_all calendar_months parse_date now ps = Err e <->
  e = "Invalid time value" /\ Exists (fun p => parse_date (date p) = None) ps.
Proof.
  induction ps as [|p ps IH]; simpl.
  - split; [discriminate|]. intros [_ Hx]. inversion Hx.
  - unfold render_dated, date_cell, formatDistanceToNow.
    destruct (parse_date (date p)) as [t|] eqn:Hp.
    + rewrite Exists_cons. destruct (render_all _ _ now ps) as [cs|e'] eqn:Hr.
      * split; [discriminate|]. intros [He [Hx|Hx]]; [congruence|].
        assert (Ok cs = Err e); [apply IH; auto|discriminate].
      * split.
        -- intros [= <-]. destruct (proj1 IH eq_refl) as [-> ?]. auto.
        -- intros [-> [?|?]]; [congruence|]. by apply IH.
    + split; [intros [= <-]; split; [done|by left]|intros [-> _]; done].
Qed.

Lemma render_all_ok now ps :
  Forall (fun p => is_Some (parse_date (date p))) ps ->
  exists cs, render_all calendar_months parse_date now ps = Ok cs /\
    Forall2 (fun p c => render_dated calendar_months parse_date now p = Ok c) ps cs.
Proof.
  induction 1 as [|p ps [t Hp] _ (cs & Hr & Hcs)]; simpl; [by exists []|].
  unfold render_dated at 1, date_cell at 1, formatDistanceToNow at 1. rewrite Hp, Hr.
  eexists. split; [reflexivity|]. constructor; [|exact Hcs].
  unfold render_dated, date_cell, formatDistanceToNow. by rewrite Hp.
Qed.

Lemma render_dated_Ok now p c :
  render_dated calendar_months parse_date now p = Ok c ->
  c.1 = render p /\ date_cell calendar_months parse_date now p = Ok c.2.
Proof. unfold render_dated. destruct (date_cell _ _ now p); intros; by simplify_eq. Qed.

(** C31: one project whose [date] does not parse breaks the whole
    list.  [formatDistanceToNow] throws [RangeError("Invalid time
    value")] while [PreviewOperations] renders, so the scroll area
    renders nothing exactly when some project's date is invalid.  When
    every date parses, each project gets its card with the fields of
    [render] and its relative date, in the backend's order. *)
Theorem preview_invalid_date now ps :
  (preview_dated calendar_months parse_date now (Some ps) = Err "Invalid time value" <->
     Exists (fun p => parse_date (date p) = None) ps) /\
  (Forall (fun p => is_Some (parse_date (date p))) ps ->
     exists cs, preview_dated calendar_months parse_date now (Some ps) = Ok (DCards (imap pair cs)) /\
       map fst cs = map render ps /\
       Forall2 (fun p c => date_cell calendar_months parse_date now p = Ok c.2) ps cs).
Proof.
  split.
  - simpl. destruct (render_all _ _ now ps) as [cs|e] eqn:Hr.
    + split; [discriminate|]. intros Hx.
      assert (render_all calendar_months parse_date now ps = Err "Invalid time value") as Herr
        by (apply render_all_err; auto). congruence.
    + apply render_all_err in Hr as [-> Hx]. by split.
  - intros Hall. destruct (render_all_ok now ps Hall) as (cs & Hr & Hcs).
    exists cs. simpl. rewrite Hr. split; [done|]. split.
    + clear Hall Hr. induction Hcs as [|p c ps cs Hc _ IH]; simpl; [done|].
      f_equal; [apply (render_dated_Ok now p c Hc)|apply IH].
    + eapply Forall2_impl; [exact Hcs|]. intros p c Hc. apply (render_dated_Ok now p c Hc).
Qed.

(** C32: the relative date of a valid date reads "in ..." for a date
    ahead of the clock and "... ago" otherwise (also for the present
    instant).  The count it shows is in the range of its unit: 1 to 44
    minutes, 1 to 24 hours (so 23.5 hours reads "about 24 hours"), 1
    to 30 days, 1 or 2 months below two months, and at least 2 months
    or 1 year beyond. *)
Theorem date_cell_text now p t :
  parse_date (date p) = Some t ->
  exists tok c, date_cell calendar_months parse_date now p =
      Ok (if (now <? t)%Z then "in " +++ locale_words tok c else locale_words tok c +++ " ago") /\
    count_ok tok c.
Proof.
  intros Hp. unfold date_cell, formatDistanceToNow, formatDistance. rewrite Hp.
  set (later := if (now <? t)%Z then t else now).
  set (earlier := if (now <? t)%Z then now else t).
  set (m := round_div ((later - earlier) / 1000) 60).
  assert (Hm : (0 <= m)%Z).
  { apply round_div_nonneg; [|lia]. apply Z.div_pos; [|lia].
    subst later earlier. destruct (Z.ltb_spec now t); lia. }
  pose proof (distance_token_bounds m (calendar_months later earlier) Hm) as Hb.
  destruct (distance_token m (calendar_months later earlier)) as [tok c].
  exists tok, c. split; [done|exact Hb].
Qed.

End RelativeDateTheorems.

Section RelativeDateWitnesses.
Import ProjectCard RelativeDate.

(** Three hours and five minutes later the card reads "about 3 hours
    ago". *)
Lemma date_cell_text_witness :
  date_cell months30 iso_one (1793491200000 + 11100000)%Z
    (mkProject "job-7" "talk.mp4" "" 3 "2026-11-01T00:00:00Z" Completed) = Ok "about 3 hours ago" /\
  exists tok c, date_cell months30 iso_one (1793491200000 + 11100000)%Z
      (mkProject "job-7" "talk.mp4" "" 3 "2026-11-01T00:00:00Z" Completed) =
    Ok (if ((1793491200000 + 11100000) <? 1793491200000)%Z then "in " +++ locale_words tok c
        else locale_words tok c +++ " ago") /\ count_ok tok c.
Proof.
  split; [vm_compute; reflexivity|].
  apply (date_cell_text months30 iso_one _ _ 1793491200000%Z). reflexivity.
Defined.

(** A list with one project dated "yesterday" renders nothing at all. *)
Lemma preview_invalid_date_witness :
  preview_dated months30 iso_one 1793491200000%Z
    (Some [mkProject "job-7" "talk.mp4" "" 3 "2026-11-01T00:00:00Z" Completed;
           mkProject "job-8" "demo.mp4" "" 1 "yesterday" Processing]) = Err "Invalid time value".
Proof.
  apply (preview_invalid_date months30 iso_one 1793491200000%Z
           [mkProject "job-7" "talk.mp4" "" 3 "2026-11-01T00:00:00Z" Completed;
            mkProject "job-8" "demo.mp4" "" 1 "yesterday" Processing]).
  right. left. reflexivity.
Defined.

End RelativeDateWitnesses.
