(* ===== verification/Subscription.v ===== *)
(** * The error subscription of [App] ([App.tsx] 28-50)

    The effect runs once per mount of [App] (twice under React's
    StrictMode).  Each run is an effect instance [k] with its own local
    variable [unlisten].  The run starts an async IIFE that awaits
    [listen("error", cb)] and then assigns [unlisten].  Its cleanup is
    [() => { if (unlisten) unlisten() }].  The IIFE is not cancelled:
    when the cleanup runs before [listen] resolves, it finds [unlisten]
    unset and does nothing, and the listener is registered afterwards
    anyway.

    The world holds Tauri's listener registry for the "error" event, as
    pairs (listener id, effect instance) in registration order.  It also
    holds the next listener id, the effect instances and the toaster.
    The toaster is any [Toaster]; the theorems use only its law.  The
    actions are the effect body ([Mount]), the resolution of its
    [listen] ([Resolve]), its cleanup ([Cleanup]), and a backend emit of
    the "error" event ([Emit]).  Tauri calls every registered handler
    with [event.id] set to that handler's listener id.  The callback
    turns the event into [listenerToast]. *)

From S2P Require Import Prelude Notify.

Module Subscription.
Import Notify.

(** The fields of the Tauri event the callback reads. *)
Record event := mkEvent { ev_id : N; ev_payload : string }.

(** One effect instance: its [unlisten] variable (the listener id once
    [listen] has resolved) and whether its cleanup has run. *)
Record effect := mkEffect { unlisten : option N; cleaned : bool }.

Inductive act :=
  | Mount (k : nat)
  | Resolve (k : nat)
  | Cleanup (k : nat)
  | Emit (payload date : string).

Section World.
Context {T : Type} `{Toaster T}.

Record world := mkWorld {
  next_id : N;
  registry : list (N * nat);
  effects : gmap nat effect;
  notes : T
}.

Definition init : world := mkWorld 0 [] ∅ toaster_empty.

(** The [listen] callback (32-44): one toast per event. *)
Definition on_error (date : string) (ev : event) (n : T) : T :=
  toast_push (listenerToast (ev_id ev) (ev_payload ev) date) n.

(** [unlisten()]: the listener with this id leaves the registry. *)
Definition unregister (id : N) (reg : list (N * nat)) : list (N * nat) :=
  filter (fun l => l.1 <> id) reg.

(** The backend emits "error": every registered handler runs, with
    its own listener id as [event.id].  The model calls them in
    registration order.  Tauri does not promise an order, so with two
    or more listeners only the multiset of toasts is significant; the
    counts are what the theorems rely on.  Listener ids count from 0 in
    each world, where Tauri's counter is global: only their
    distinctness matters. *)
Definition emit (w : world) (payload date : string) : world :=
  mkWorld (next_id w) (registry w) (effects w)
    (foldl (fun n l => on_error date (mkEvent l.1 payload) n) (notes w) (registry w)).

Definition step (w : world) (a : act) : option world :=
  match a with
  | Mount k =>
      match effects w !! k with
      | None => Some (mkWorld (next_id w) (registry w)
                        (<[k := mkEffect None false]> (effects w)) (notes w))
      | Some _ => None
      end
  | Resolve k =>
      match effects w !! k with
      | Some (mkEffect None c) =>
          Some (mkWorld (next_id w + 1) (registry w ++ [(next_id w, k)])
                  (<[k := mkEffect (Some (next_id w)) c]> (effects w)) (notes w))
      | _ => None
      end
  | Cleanup k =>
      match effects w !! k with
      | Some (mkEffect u false) =>
          Some (mkWorld (next_id w)
                  (match u with Some id => unregister id (registry w) | None => registry w end)
                  (<[k := mkEffect u true]> (effects w)) (notes w))
      | _ => None
      end
  | Emit p d => Some (emit w p d)
  end.

Fixpoint run (w : world) (acts : list act) : option world :=
  match acts with
  | [] => Some w
  | a :: rest => match step w a with Some w' => run w' rest | None => None end
  end.

(** The registry invariant: listener ids are unique; each listener
    belongs to an effect instance whose [unlisten] holds its id; ids
    handed out are below [next_id]; and a resolved instance whose
    cleanup has not run is still registered. *)
Definition wf (w : world) : Prop :=
  NoDup (fst <$> registry w) /\
  (forall id k, (id, k) ∈ registry w -> exists c, effects w !! k = Some (mkEffect (Some id) c)) /\
  (forall k id c, effects w !! k = Some (mkEffect (Some id) c) -> (id < next_id w)%N) /\
  (forall k id, effects w !! k = Some (mkEffect (Some id) false) -> (id, k) ∈ registry w).

End World.

End Subscription.

Section SubscriptionTheorems.
Import Notify Subscription.
Context {T : Type} `{ToasterLaws T}.
Implicit Types (w : @world T).

Lemma foldl_push_shown (f : N * nat -> toast) (reg : list (N * nat)) (n : T) :
  shown (foldl (fun n l => toast_push (f l) n) n reg) = shown n ++ (f <$> reg).
Proof.
  revert n. induction reg as [|l reg IH]; intros n; simpl; [by rewrite app_nil_r|].
  rewrite IH, shown_push. by rewrite <- app_assoc.
Qed.

(** C2: one emit of the "error" event raises exactly one toast per
    registered listener, in registration order, each carrying that
    listener's id and the event's payload; nothing else changes.  With
    one listener (spec scenario C) that is exactly one toast. *)
Theorem emit_toasts w p d :
  shown (notes (emit w p d)) = shown (notes w) ++ ((fun l => listenerToast l.1 p d) <$> registry w) /\
  registry (emit w p d) = registry w /\ effects (emit w p d) = effects w.
Proof. split_and!; [unfold emit, on_error; apply foldl_push_shown|done|done]. Qed.

(** Emitting a sequence of events: each is toasted once per listener,
    in emission order. *)
Lemma run_emits w ps d :
  exists w', run w ((fun p => Emit p d) <$> ps) = Some w' /\ registry w' = registry w /\
    effects w' = effects w /\
    shown (notes w') =
      shown (notes w) ++ concat ((fun p => (fun l => listenerToast l.1 p d) <$> registry w) <$> ps).
Proof.
  revert w. induction ps as [|p ps IH]; intros w; cbn -[emit].
  - exists w. by rewrite app_nil_r.
  - destruct (IH (emit w p d)) as (w' & Hrun & Hreg & Heff & Hshown).
    exists w'. rewrite Hrun. destruct (emit_toasts w p d) as (He & Hr & Hf).
    rewrite Hreg, Heff, Hshown, He, Hr, Hf. split_and!; try done. by rewrite app_assoc.
Qed.

(** ** The registry invariant *)

Lemma wf_init : wf (init : @world T).
Proof.
  unfold wf, init; cbn [registry effects next_id]. split_and!; [apply NoDup_nil_2|set_solver|intros ???|intros ??];
    rewrite lookup_empty; discriminate.
Qed.

Lemma step_mount_wf w k w' : wf w -> step w (Mount k) = Some w' -> wf w'.
Proof.
  intros (Hnd & Hreg & Hlt & Hact) Hs. simpl in Hs. inv_guards.
  unfold wf; simpl. split_and!; [done| | |].
  - intros id k' Hin. destruct (Hreg id k' Hin) as [c Hc]. exists c.
    rewrite lookup_insert_ne; [done|]. intros ->. congruence.
  - intros k' id c. rewrite lookup_insert. case_decide; [discriminate|eauto].
  - intros k' id. rewrite lookup_insert. case_decide; [discriminate|eauto].
Qed.

Lemma step_resolve_wf w k w' : wf w -> step w (Resolve k) = Some w' -> wf w'.
Proof.
  intros (Hnd & Hreg & Hlt & Hact) Hs. simpl in Hs. inv_guards.
  unfold wf; simpl. split_and!.
  - apply assoc_NoDup_snoc; [done|]. intros k' Hin.
    destruct (Hreg _ _ Hin) as [c' Hc']. specialize (Hlt _ _ _ Hc'). lia.
  - intros id k' [Hin | Hin%list_elem_of_singleton]%elem_of_app.
    + destruct (Hreg _ _ Hin) as [c' Hc']. exists c'.
      rewrite lookup_insert_ne; [done|]. intros ->. congruence.
    + simplify_eq. eexists. apply lookup_insert_eq.
  - intros k' id c'. rewrite lookup_insert. case_decide; [intros [= <- _]; lia|].
    intros Hc'. specialize (Hlt _ _ _ Hc'). lia.
  - intros k' id. rewrite lookup_insert. case_decide.
    + intros [= <- _]. subst. set_solver.
    + intros Hc'. apply elem_of_app. left. eauto.
Qed.

Lemma step_cleanup_wf w k w' : wf w -> step w (Cleanup k) = Some w' -> wf w'.
Proof.
  intros (Hnd & Hreg & Hlt & Hact) Hs. simpl in Hs. inv_guards.
  set (reg' := match unlisten0 with Some id => unregister id (registry w) | None => registry w end).
  assert (Hsub : forall x, x ∈ reg' -> x ∈ registry w).
  { intros x. subst reg'. destruct unlisten0; [|done]. by intros [_ ?]%list_elem_of_filter. }
  assert (Hnd' : NoDup (fst <$> reg')).
  { subst reg'. destruct unlisten0; [by apply assoc_NoDup_filter|done]. }
  unfold wf; simpl. split_and!; [done| | |].
  - intros id k' Hin. destruct (Hreg _ _ (Hsub _ Hin)) as [c' Hc'].
    rewrite lookup_insert. case_decide; [subst|eauto].
    rewrite E in Hc'. simplify_eq. by eexists.
  - intros k' id c'. rewrite lookup_insert. case_decide; [subst; intros [= -> _]; eauto|eauto].
  - intros k' id. rewrite lookup_insert. case_decide; [discriminate|]. intros Hc'.
    pose proof (Hact _ _ Hc') as Hin'. subst reg'. destruct unlisten0 as [id0|]; [|done].
    apply list_elem_of_filter. split; [|done]. simpl. intros ->.
    pose proof (Hact _ _ E) as Hk.
    by pose proof (assoc_key_unique _ _ _ _ Hnd Hk Hin').
Qed.

(** Every step keeps the registry invariant. *)
Lemma step_wf w a w' : wf w -> step w a = Some w' -> wf w'.
Proof.
  destruct a.
  - apply step_mount_wf.
  - apply step_resolve_wf.
  - apply step_cleanup_wf.
  - intros Hw [= <-]. exact Hw.
Qed.

(** C3: the registry invariant holds initially and every step (mount,
    listen resolution, cleanup, emit) keeps it: listener ids are unique
    and below [next_id], each listener belongs to the effect instance
    whose [unlisten] holds its id, and an instance that resolved and was
    not cleaned up is registered. *)
Theorem registry_invariant :
  wf (init : @world T) /\ (forall w a w', wf w -> step w a = Some w' -> wf w').
Proof. split; [apply wf_init|apply step_wf]. Qed.

Lemma run_wf w acts w' : wf w -> run w acts = Some w' -> wf w'.
Proof.
  revert w. induction acts as [|a acts IH]; simpl; intros w Hw Hr; [by simplify_eq|].
  destruct (step w a) eqn:Hs; [|discriminate]. eauto using step_wf.
Qed.

(** C4: the cleanup of an effect instance whose [listen] has resolved
    removes its listener: afterwards no listener of that instance is
    registered, and the others stay in order. *)
Theorem cleanup_after_resolve w k id w' :
  wf w -> effects w !! k = Some (mkEffect (Some id) false) ->
  step w (Cleanup k) = Some w' ->
  (forall id', (id', k) ∉ registry w') /\ registry w' = unregister id (registry w).
Proof.
  intros Hw Hk Hs. simpl in Hs. rewrite Hk in Hs. simplify_eq/=. split; [|done].
  intros id' [Hne Hin]%list_elem_of_filter. simpl in Hne.
  destruct Hw as (_ & Hreg & _). destruct (Hreg _ _ Hin) as [c Hc]. rewrite Hk in Hc. congruence.
Qed.

Lemma run_app w a b :
  run w (a ++ b) = match run w a with Some w' => run w' b | None => None end.
Proof.
  revert w. induction a as [|x a IH]; intros w; simpl; [done|].
  destruct (step w x); [apply IH|done].
Qed.

Lemma concat_singletons {A B} (f : A -> B) (l : list A) :
  concat ((fun x => [f x]) <$> l) = f <$> l.
Proof. induction l as [|x l IH]; [done|]. rewrite !fmap_cons. simpl. by rewrite IH. Qed.

Ltac run_world :=
  repeat progress (cbn [run step effects registry next_id notes init unlisten cleaned app];
                   simplify_map_eq).

Lemma unregister_only id k : unregister id [(id, k)] = [].
Proof. unfold unregister. rewrite filter_cons_False; [done|simpl; auto]. Qed.

(** C1: the teardown race of the effect.  When [listen] resolves before
    the cleanup, the cleanup unregisters the listener and later events
    raise no toast.  When the cleanup runs first, it finds [unlisten]
    unset and does nothing.  The listener is then registered anyway,
    and every later event raises a toast for an effect that was torn
    down. *)
Theorem teardown_order k ps d :
  (exists w, run (init : @world T) ([Mount k; Resolve k; Cleanup k] ++ ((fun p => Emit p d) <$> ps)) = Some w /\
     registry w = [] /\ shown (notes w) = []) /\
  (exists w, run (init : @world T) ([Mount k; Cleanup k; Resolve k] ++ ((fun p => Emit p d) <$> ps)) = Some w /\
     registry w = [(0%N, k)] /\ effects w !! k = Some (mkEffect (Some 0%N) true) /\
     shown (notes w) = (fun p => listenerToast 0 p d) <$> ps).
Proof.
  split; rewrite run_app; run_world;
    match goal with |- exists w, run ?w0 _ = Some w /\ _ =>
      destruct (run_emits w0 ps d) as (w & Hr & Hreg & Heff & Hsh) end;
    exists w; rewrite Hr, Hreg, Hsh; cbn [registry effects notes] in *; rewrite shown_empty.
  - rewrite unregister_only. split_and!; [done|done|]. simpl. clear Hr Hreg Heff Hsh. induction ps as [|p ps IH]; [done|]. rewrite fmap_cons. exact IH.
  - rewrite Heff. split_and!; [done|done|by simplify_map_eq|]. apply concat_singletons.
Qed.

(** C5: under React's StrictMode the effect runs, is cleaned up and runs
    again before either [listen] resolves.  Both listeners stay
    registered, and one backend event raises two toasts. *)
Theorem strict_mode_duplicate p d :
  exists w, run (init : @world T) [Mount 0; Cleanup 0; Mount 1; Resolve 0; Resolve 1; Emit p d] = Some w /\
    registry w = [(0%N, 0%nat); (1%N, 1%nat)] /\
    shown (notes w) = [listenerToast 0 p d; listenerToast 1 p d].
Proof.
  run_world. eexists; split; [reflexivity|]. cbn [registry notes emit].
  split; [done|]. unfold on_error. rewrite foldl_push_shown, shown_empty. done.
Qed.

End SubscriptionTheorems.

Section SubscriptionWitnesses.
Import Notify Subscription.

(** Mount, resolve, clean up: the listener is gone. *)
Lemma cleanup_after_resolve_witness :
  exists w w', run (init : @world (list toast)) [Mount 0; Resolve 0] = Some w /\
    step w (Cleanup 0) = Some w' /\ registry w' = [].
Proof.
  do 2 eexists. split; [reflexivity|]. split; [reflexivity|].
  destruct (cleanup_after_resolve _ 0 0 _
              (run_wf _ [Mount 0; Resolve 0] _ wf_init eq_refl) eq_refl eq_refl) as [_ ->].
  reflexivity.
Defined.

Lemma registry_invariant_witness :
  exists w, step (init : @world (list toast)) (Mount 3) = Some w /\ wf w.
Proof.
  eexists. split; [reflexivity|].
  apply (proj2 (registry_invariant (T:=list toast)) init (Mount 3)); [exact (proj1 registry_invariant)|reflexivity].
Defined.

(** Spec scenario C: one listener, one event, one toast. *)
Lemma emit_toasts_witness :
  exists w, run (init : @world (list toast)) [Mount 0; Resolve 0] = Some w /\
    shown (notes (emit w "decode failure" "today")) = [listenerToast 0 "decode failure" "today"].
Proof.
  eexists. split; [reflexivity|].
  rewrite (proj1 (emit_toasts _ "decode failure" "today")). reflexivity.
Defined.

Lemma teardown_order_witness :
  exists w, run (init : @world (list toast)) ([Mount 0; Cleanup 0; Resolve 0] ++ [Emit "decode failure" "today"]) = Some w /\
    shown (notes w) = [listenerToast 0 "decode failure" "today"].
Proof.
  destruct (proj2 (teardown_order (T:=list toast) 0 ["decode failure"] "today")) as (w & Hr & _ & _ & Hs).
  exists w. split; [exact Hr|exact Hs].
Defined.

Lemma strict_mode_duplicate_witness :
  exists w, run (init : @world (list toast)) [Mount 0; Cleanup 0; Mount 1; Resolve 0; Resolve 1; Emit "decode failure" "today"] = Some w /\
    length (shown (notes w)) = 2%nat.
Proof.
  destruct (strict_mode_duplicate (T:=list toast) "decode failure" "today") as (w & Hr & _ & Hs).
  exists w. split; [exact Hr|]. rewrite Hs. reflexivity.
Defined.

End SubscriptionWitnesses.
