(* ===== verification/Lifecycle.v ===== *)
(** * When the error subscription keeps its promises

    The spec (4.3, 5) promises two things for the error subscription.
    Each backend event is delivered at most once.  After teardown no
    listener is left.  [Subscription] shows that the code breaks both
    when a cleanup runs before [listen] resolves.  This file shows that
    this is the only way they break.

    [disciplined] allows a step only under two conditions.  A new effect
    instance mounts only when every earlier one has been cleaned up:
    React runs effects of one component one after another.  A cleanup
    runs only once the instance's [listen] has resolved.  A cleanup
    that awaited the [listen] promise before calling [unlisten] would
    meet this second condition.  [reach_d] is reachability by such
    steps, by rule induction.  On every such state, at most one listener
    is registered, so an event raises at most one toast.  When every
    instance has been cleaned up, the registry is empty. *)

From S2P Require Import Prelude Notify Subscription.

Module Lifecycle.
Import Notify Subscription.

Section Discipline.
Context {T : Type} `{Toaster T}.

(** The effect discipline, as a test on the step about to run. *)
Definition disciplined (w : @world T) (a : act) : bool :=
  match a with
  | Mount _ => bool_decide (map_Forall (fun _ e => cleaned e = true) (effects w))
  | Cleanup k =>
      match effects w !! k with
      | Some (mkEffect (Some _) _) => true
      | _ => false
      end
  | _ => true
  end.

Inductive reach_d : @world T -> Prop :=
  | reach_init : reach_d init
  | reach_step w a w' : reach_d w -> disciplined w a = true -> step w a = Some w' -> reach_d w'.

(** At most one effect instance is not cleaned up. *)
Definition unique_uncleaned (m : gmap nat effect) : Prop :=
  forall k1 k2 e1 e2, m !! k1 = Some e1 -> m !! k2 = Some e2 ->
    cleaned e1 = false -> cleaned e2 = false -> k1 = k2.

(** The invariant behind it: the registry invariant; every registered
    listener belongs to an instance not yet cleaned up; no instance was
    cleaned up before resolving; at most one instance is not cleaned
    up. *)
Definition single (w : @world T) : Prop :=
  wf w /\
  (forall id k, (id, k) ∈ registry w -> effects w !! k = Some (mkEffect (Some id) false)) /\
  (forall k, effects w !! k <> Some (mkEffect None true)) /\
  unique_uncleaned (effects w).

End Discipline.

End Lifecycle.

Section LifecycleTheorems.
Import Notify Subscription Lifecycle.
Context {T : Type} `{ToasterLaws T}.
Implicit Types (w : @world T).

Lemma unique_uncleaned_insert m k e' :
  unique_uncleaned m ->
  (cleaned e' = true \/ exists e, m !! k = Some e /\ cleaned e = cleaned e') ->
  unique_uncleaned (<[k := e']> m).
Proof.
  intros Hu He k1 k2 e1 e2. rewrite !lookup_insert.
  destruct He as [Hc|(e & Hk & Hc)];
    repeat case_decide; subst; intros; simplify_eq; try congruence; eauto.
Qed.

Lemma single_init : single (init : @world T).
Proof.
  unfold single, init; cbn [registry effects]. split_and!.
  - exact wf_init.
  - intros ?? Hin. by apply elem_of_nil in Hin.
  - intros k. by rewrite lookup_empty.
  - intros ????. by rewrite lookup_empty.
Qed.

Lemma single_mount w k w' :
  single w -> disciplined w (Mount k) = true -> step w (Mount k) = Some w' -> single w'.
Proof.
  intros Hs Hd Hst. pose proof (step_wf w (Mount k) w' (proj1 Hs) Hst) as Hw'.
  destruct Hs as (_ & Hreg & Hnone & Hu). simpl in Hd, Hst. inv_guards.
  match goal with H : map_Forall _ _ |- _ => rename H into Hall end. unfold single; simpl. split_and!; [exact Hw'| | |].
  - intros id k' Hin. pose proof (Hreg _ _ Hin) as Hk'.
    pose proof (map_Forall_lookup_1 _ _ _ _ Hall Hk'). discriminate.
  - intros k'. rewrite lookup_insert. case_decide; [congruence|apply Hnone].
  - intros k1 k2 e1 e2. rewrite !lookup_insert. repeat case_decide; subst; intros Hl1 Hl2 Hc1 Hc2;
      simplify_eq; try done;
      match goal with H : effects w !! _ = Some ?e, Hc : cleaned ?e = false |- _ =>
        pose proof (map_Forall_lookup_1 _ _ _ _ Hall H); congruence end.
Qed.

Lemma single_resolve w k w' :
  single w -> step w (Resolve k) = Some w' -> single w'.
Proof.
  intros Hs Hst. pose proof (step_wf w (Resolve k) w' (proj1 Hs) Hst) as Hw'.
  destruct Hs as (_ & Hreg & Hnone & Hu). simpl in Hst. inv_guards.
  match goal with H : effects w !! k = Some (mkEffect None ?c) |- _ => rename H into Hk end.
  assert (cleaned0 = false) as ->.
  { destruct cleaned0; [|done]. by destruct (Hnone k). }
  unfold single; simpl. split_and!; [exact Hw'| | |].
  - intros id k' [Hin | Hin%list_elem_of_singleton]%elem_of_app.
    + pose proof (Hreg _ _ Hin) as Hk'. rewrite lookup_insert_ne; [done|].
      intros ->. congruence.
    + simplify_eq. apply lookup_insert_eq.
  - intros k'. rewrite lookup_insert. case_decide; [congruence|apply Hnone].
  - apply unique_uncleaned_insert; [done|]. right. eexists; split; [exact Hk|done].
Qed.

Lemma single_cleanup w k w' :
  single w -> disciplined w (Cleanup k) = true -> step w (Cleanup k) = Some w' -> single w'.
Proof.
  intros Hs Hd Hst. pose proof (step_wf w (Cleanup k) w' (proj1 Hs) Hst) as Hw'.
  destruct Hs as (_ & Hreg & Hnone & Hu). simpl in Hd, Hst.
  destruct (effects w !! k) as [[[id|] c]|] eqn:Hk; try discriminate.
  destruct c; [discriminate|]. simplify_eq/=.
  unfold single; simpl. split_and!; [exact Hw'| | |].
  - intros id' k' [Hne Hin]%list_elem_of_filter. simpl in Hne.
    pose proof (Hreg _ _ Hin) as Hk'. rewrite lookup_insert_ne; [done|].
    intros ->. congruence.
  - intros k'. rewrite lookup_insert. case_decide; [congruence|apply Hnone].
  - apply unique_uncleaned_insert; [done|]. by left.
Qed.

Lemma single_emit w p d : single w -> single (emit w p d).
Proof. done. Qed.

(** A disciplined step keeps the invariant. *)
Lemma single_step w a w' : single w -> disciplined w a = true -> step w a = Some w' -> single w'.
Proof.
  intros Hs Hd Hst. destruct a.
  - by eapply single_mount.
  - by eapply single_resolve.
  - by eapply single_cleanup.
  - simpl in Hst. simplify_eq. by apply single_emit.
Qed.

(** The invariant does not look at the toaster. *)
Lemma single_notes w (n : T) :
  single w -> single (mkWorld (next_id w) (registry w) (effects w) n).
Proof. done. Qed.

Lemma reach_d_single w : reach_d w -> single w.
Proof.
  induction 1 as [|w a w' _ IH Hd Hst]; [apply single_init|]. by eapply single_step.
Qed.

Lemma single_registry_le1 w : single w -> (length (registry w) <= 1)%nat.
Proof.
  intros ((Hnd & _) & Hreg & _ & Hu). apply assoc_NoDup_same_key; [done|].
  intros [id1 k1] [id2 k2] H1 H2. simpl.
  pose proof (Hreg _ _ H1) as E1. pose proof (Hreg _ _ H2) as E2.
  assert (k1 = k2) as <- by (eapply Hu; eauto).
  congruence.
Qed.

(** C27: under the effect discipline (sequential mounts, cleanup only
    after [listen] resolved), every state has at most one listener
    registered.  So each backend error event raises at most one toast,
    as the spec's at-most-once delivery requires. *)
Theorem disciplined_at_most_once w p d :
  reach_d w ->
  exists ts, (length ts <= 1)%nat /\ shown (notes (emit w p d)) = shown (notes w) ++ ts.
Proof.
  intros Hr. exists ((fun l => listenerToast l.1 p d) <$> registry w). split.
  - rewrite length_fmap. by apply single_registry_le1, reach_d_single.
  - unfold emit, on_error. apply foldl_push_shown.
Qed.

(** C28: under the effect discipline, once every effect instance has
    been cleaned up no listener is left, so later events raise no
    toast: the subscription does not leak. *)
Theorem disciplined_teardown_silent w :
  reach_d w -> map_Forall (fun _ e => cleaned e = true) (effects w) -> registry w = [].
Proof.
  intros Hr Hall. destruct (reach_d_single w Hr) as (_ & Hreg & _).
  destruct (registry w) as [|[id k] rest] eqn:Hreg_eq; [done|].
  exfalso. assert (Hin : (id, k) ∈ (id, k) :: rest) by left.
  pose proof (map_Forall_lookup_1 _ _ _ _ Hall (Hreg _ _ Hin)). discriminate.
Qed.

End LifecycleTheorems.

Section LifecycleWitnesses.
Import Notify Subscription Lifecycle.

(** One effect instance mounted and resolved, by disciplined steps: an
    error event raises exactly one toast. *)
Lemma disciplined_at_most_once_witness :
  exists ts, (length ts <= 1)%nat /\
    shown (notes (emit (mkWorld 1 [(0%N, 0)] {[0 := mkEffect (Some 0%N) false]} ([] : list toast))
                    "decode failure" "today")) =
    shown ([] : list toast) ++ ts.
Proof.
  apply (disciplined_at_most_once (mkWorld 1 [(0%N, 0)] {[0 := mkEffect (Some 0%N) false]} [])).
  apply (reach_step (mkWorld 0 [] {[0 := mkEffect None false]} []) (Resolve 0)); [|reflexivity|reflexivity].
  apply (reach_step init (Mount 0)); [apply reach_init|reflexivity|reflexivity].
Defined.

(** Mount, resolve, then clean up: no listener is left. *)
Lemma disciplined_teardown_silent_witness :
  registry (mkWorld 1 [] {[0 := mkEffect (Some 0%N) true]} ([] : list toast)) = [].
Proof.
  apply disciplined_teardown_silent.
  - apply (reach_step (mkWorld 1 [(0%N, 0)] {[0 := mkEffect (Some 0%N) false]} []) (Cleanup 0));
      [|reflexivity|reflexivity].
    apply (reach_step (mkWorld 0 [] {[0 := mkEffect None false]} []) (Resolve 0)); [|reflexivity|reflexivity].
    apply (reach_step init (Mount 0)); [apply reach_init|reflexivity|reflexivity].
  - by apply map_Forall_singleton.
Defined.

End LifecycleWitnesses.
