(* ===== verification/Gateway.v ===== *)
(** * Submission and project fetch ([App.tsx] 76-199)

    The application state joins the form and hover of the control panel
    ([Controls.ui]), the toaster, the [projects] hook of
    [PreviewOperations], the log of backend commands sent through
    [invoke], and the calls still in flight.
    - [SelectFile]: [handleButtonClick] after [open()] resolves (84-96).
      [setSelectedFile(file)] stores the path, or [null] when the dialog
      is cancelled.
    - [Control]: one event of [VideoControls].
    - [SubmitStart]: a click on "Generate clips" runs [submitGeneration]
      (98-101).  [reqData] is built and [invoke("generate_cuts")] is
      sent.  There is no guard.
    - [SubmitDone]: that promise settles (102-123).  On success the
      "initialized" toast is raised; on failure, the error toast.
    - [FetchStart]: the effect of [PreviewOperations] (177-182) sends
      [invoke("projects")].  The effect runs once per mount (twice
      under StrictMode); the model lets it start any number of times,
      an over-approximation under which the safety theorems still
      hold.
    - [FetchDone]: that promise settles.  On success [setProjects]
      replaces the snapshot.  On rejection the async IIFE has no
      [catch]: the rejection is unhandled and nothing changes.
    Completions name the in-flight call they settle by its position.  So
    calls may settle in any order and interleave with any other step.
    [completion] picks out the completion steps, and [settles] is the
    relation they induce on states; its well-foundedness is the
    termination of settling. *)

From Stdlib Require Import Wellfounded.
From S2P Require Import Prelude Request Controls Notify ProjectCard.

Module Gateway.
Import Notify ProjectCard.

(** The backend commands, by their wire names. *)
Inductive command :=
  | GenerateCuts (reqData : Gen.GenShape)
  | ListProjects.

(** An [invoke] promise not yet settled. *)
Inductive call := SubmitCall | FetchCall.

#[export] Instance call_eq_dec : EqDecision call.
Proof. solve_decision. Defined.

Inductive act :=
  | SelectFile (picked : option string)
  | Control (e : Controls.event)
  | SubmitStart
  | SubmitDone (i : nat) (res : outcome unit) (date : string)
  | FetchStart
  | FetchDone (i : nat) (res : outcome (list Project)).

Section App.
Context {T : Type} `{Toaster T}.

Record app := mkApp {
  ui : Controls.ui;
  notes : T;
  projects : option (list Project);
  sent : list command;
  inflight : list call
}.

Definition form (a : app) : Form.state := Controls.form (ui a).

Definition init : app := mkApp Controls.init toaster_empty None [] [].

(** [handleButtonClick] once the dialog returns. *)
Definition handleButtonClick (file : option string) (a : app) : app :=
  mkApp (Controls.with_form (ui a) (Form.setSelectedFile file))
    (notes a) (projects a) (sent a) (inflight a).

(** [submitGeneration] up to the [await]: build [reqData] and send it. *)
Definition submitGeneration (a : app) : app :=
  mkApp (ui a) (notes a) (projects a)
    (sent a ++ [GenerateCuts (reqData (form a))]) (inflight a ++ [SubmitCall]).

(** The rest of [submitGeneration]: the toast of the [try] or of the
    [catch]. *)
Definition submitSettled (res : outcome unit) (date : string) (n : T) : T :=
  match res with
  | Ok _ => toast_push (submitOkToast date) n
  | Err e => toast_push (submitErrToast e date) n
  end.

(** The effect of [PreviewOperations] up to the [await]. *)
Definition fetchProjects (a : app) : app :=
  mkApp (ui a) (notes a) (projects a) (sent a ++ [ListProjects]) (inflight a ++ [FetchCall]).

(** [setProjects(fetchedProjects)] on success; nothing on rejection. *)
Definition fetchSettled (res : outcome (list Project)) (ps : option (list Project)) :
    option (list Project) :=
  match res with
  | Ok fetched => Some fetched
  | Err _ => ps
  end.

Definition step (a : app) (x : act) : option app :=
  match x with
  | SelectFile file => Some (handleButtonClick file a)
  | Control e =>
      match Controls.step (ui a) e with
      | Some u => Some (mkApp u (notes a) (projects a) (sent a) (inflight a))
      | None => None
      end
  | SubmitStart => Some (submitGeneration a)
  | SubmitDone i res date =>
      match inflight a !! i with
      | Some SubmitCall =>
          Some (mkApp (ui a) (submitSettled res date (notes a)) (projects a) (sent a)
                  (delete i (inflight a)))
      | _ => None
      end
  | FetchStart => Some (fetchProjects a)
  | FetchDone i res =>
      match inflight a !! i with
      | Some FetchCall =>
          Some (mkApp (ui a) (notes a) (fetchSettled res (projects a)) (sent a)
                  (delete i (inflight a)))
      | _ => None
      end
  end.

Fixpoint run (a : app) (xs : list act) : option app :=
  match xs with
  | [] => Some a
  | x :: rest => match step a x with Some a' => run a' rest | None => None end
  end.

(** The line under the file picker (138-142):
    [selectedFile ? "Selected file: " + selectedFile.split("/").pop()
                  : "No file selected"].  An empty path is falsy. *)
Definition selectedFileLabel (selectedFile : option string) : string :=
  match selectedFile with
  | Some file =>
      if js_truthy file
      then "Selected file: " +++ default "" (js_pop (split_on "/"%char file))
      else "No file selected"
  | None => "No file selected"
  end.

(** Every request sent so far satisfies the spec's request invariant. *)
Definition sent_valid (a : app) : Prop :=
  forall r, GenerateCuts r ∈ sent a -> valid_request r = true.

(** The steps that settle a pending [invoke] promise. *)
Definition completion (x : act) : bool :=
  match x with
  | SubmitDone _ _ _ | FetchDone _ _ => true
  | _ => false
  end.

(** [settles a' a]: [a'] follows [a] by settling one pending call. *)
Definition settles (a' a : app) : Prop :=
  exists x, completion x = true /\ step a x = Some a'.

End App.

End Gateway.

Section GatewayTheorems.
Import Notify ProjectCard Gateway.
Context {T : Type} `{ToasterLaws T}.
Implicit Types (a : @app T).

(** C7: a submission that fails raises exactly one error toast carrying
    the error, and leaves the project snapshot, the form, and the log
    of sent commands unchanged. *)
Theorem submit_failure_unchanged a i e d a' :
  step a (SubmitDone i (Err e) d) = Some a' ->
  projects a' = projects a /\ ui a' = ui a /\ sent a' = sent a /\
  shown (notes a') = shown (notes a) ++ [submitErrToast e d].
Proof. simpl. intros Hs. inv_guards. split_and!; try done. apply shown_push. Qed.

(** C8: a submission that succeeds raises exactly one success toast and
    leaves the project snapshot unchanged; no refresh is sent. *)
Theorem submit_success_one_toast a i u d a' :
  step a (SubmitDone i (Ok u) d) = Some a' ->
  projects a' = projects a /\ sent a' = sent a /\
  shown (notes a') = shown (notes a) ++ [submitOkToast d].
Proof. simpl. intros Hs. inv_guards. split_and!; try done. apply shown_push. Qed.

(** C11: "Generate clips" always sends [generate_cuts], whatever the
    file selection (also with none): the selected file is not part of
    the request. *)
Theorem submit_ignores_file a file :
  step a SubmitStart = Some (submitGeneration a) /\
  sent (submitGeneration a) = sent a ++ [GenerateCuts (reqData (form a))] /\
  reqData (Form.setSelectedFile file (form a)) = reqData (form a).
Proof. done. Qed.

(** C9: a successful fetch replaces the snapshot wholesale with the
    backend's list.  A failed fetch keeps the snapshot and raises no
    toast. *)
Theorem fetch_settles a i res a' :
  step a (FetchDone i res) = Some a' ->
  notes a' = notes a /\ ui a' = ui a /\
  match res with
  | Ok ps => projects a' = Some ps
  | Err _ => projects a' = projects a
  end.
Proof. simpl. intros Hs. inv_guards. by destruct res. Qed.

(** C10: only a successful fetch writes the project snapshot: any other
    step leaves it unchanged. *)
Theorem only_fetch_writes_projects a x a' :
  step a x = Some a' -> projects a' <> projects a ->
  exists i ps, x = FetchDone i (Ok ps) /\ projects a' = Some ps.
Proof.
  intros Hs Hne. destruct x; simpl in Hs; inv_guards; try done.
  destruct res; simpl in *; [by eauto|done].
Qed.

Lemma step_form_ok_app a x a' :
  form_ok (form a) -> step a x = Some a' -> form_ok (form a').
Proof.
  intros Hok Hs. destruct x; simpl in Hs; inv_guards; try done;
    try (unfold handleButtonClick, form in *; simpl; repeat case_match; done).
  - eapply step_form_ok; eauto.
Qed.

Lemma step_sent_valid a x a' :
  form_ok (form a) -> sent_valid a -> step a x = Some a' -> sent_valid a'.
Proof.
  intros Hok Hv Hs r Hr. destruct x; simpl in Hs; inv_guards; eauto.
  - apply elem_of_app in Hr as [Hr|Hr%list_elem_of_singleton]; [eauto|].
    simplify_eq. by apply form_ok_request_valid.
  - apply elem_of_app in Hr as [Hr|Hr%list_elem_of_singleton]; [eauto|done].
Qed.

(** Validity of the requests sent is kept along any run that starts
    from a well-formed form. *)
Lemma run_sent_valid b xs a :
  form_ok (form b) -> sent_valid b -> run b xs = Some a -> sent_valid a.
Proof.
  revert b. induction xs as [|y ys IH]; simpl; intros b Hok Hv Hr; [by simplify_eq|].
  destruct (step b y) as [b'|] eqn:Hs; [|discriminate].
  eapply IH; [eapply step_form_ok_app| eapply step_sent_valid|]; eauto.
Qed.

(** C6: every [generate_cuts] request sent from a reachable state
    satisfies the spec's request invariant: both lengths present,
    [20 <= minLength <= maxLength <= 180], quantity in [1,24], font in
    the enumerated set. *)
Theorem reachable_sent_valid xs a :
  run (init : @app T) xs = Some a -> sent_valid a.
Proof.
  apply run_sent_valid; [apply form_ok_init|]. intros r Hr. by apply elem_of_nil in Hr.
Qed.

(** C21: the picker shows the last segment of the selected path: for a
    path [dir/base] whose [base] has no "/", the label is
    "Selected file: base"; with no selection it is "No file selected". *)
Theorem selected_file_basename dir base :
  has_char "/"%char base = false ->
  selectedFileLabel (Some (dir +++ String "/"%char base)) = "Selected file: " +++ base /\
  selectedFileLabel None = "No file selected".
Proof.
  intros Hb. split; [|done]. simpl.
  assert (Hne : js_truthy (dir +++ String "/"%char base) = true).
  { unfold js_truthy. destruct dir; reflexivity. }
  rewrite Hne. by rewrite js_pop_split_last.
Qed.

(** A completion removes the call it settles. *)
Lemma completion_shrinks a x a' :
  completion x = true -> step a x = Some a' ->
  (length (inflight a') < length (inflight a))%nat.
Proof.
  intros Hc Hs. destruct x; try discriminate; simpl in Hs; inv_guards; simpl;
    match goal with H : inflight a !! ?i = Some _ |- _ =>
      rewrite length_delete by eauto; pose proof (lookup_lt_Some _ _ _ H) end; lia.
Qed.

(** C30: settling calls terminates.  Each [invoke] promise settles at
    most once, so there is no infinite sequence of completion steps,
    whatever the outcomes and in whatever order the calls settle. *)
Theorem settling_terminates : well_founded (@settles T _).
Proof.
  apply (wf_incl _ _ (fun a' a => length (inflight a') < length (inflight a))%nat).
  - intros a' a (x & Hc & Hs). exact (completion_shrinks a x a' Hc Hs).
  - apply (wf_inverse_image _ nat lt (fun a => length (inflight a))), lt_wf.
Qed.

End GatewayTheorems.

Section GatewayWitnesses.
Import Notify ProjectCard Gateway.

Lemma submit_failure_unchanged_witness :
  exists a', step (submitGeneration (init : @app (list toast))) (SubmitDone 0 (Err "timeout") "today") = Some a' /\
    projects a' = None /\ shown (notes a') = [submitErrToast "timeout" "today"].
Proof.
  eexists. split; [reflexivity|].
  destruct (submit_failure_unchanged (submitGeneration init) 0 "timeout" "today" _ eq_refl)
    as (Hp & _ & _ & Hs).
  rewrite Hp, Hs. split; reflexivity.
Defined.

Lemma submit_success_one_toast_witness :
  exists a', step (submitGeneration (init : @app (list toast))) (SubmitDone 0 (Ok tt) "today") = Some a' /\
    shown (notes a') = [submitOkToast "today"].
Proof.
  eexists. split; [reflexivity|].
  destruct (submit_success_one_toast (submitGeneration init) 0 tt "today" _ eq_refl) as (_ & _ & Hs).
  rewrite Hs. reflexivity.
Defined.

Lemma fetch_settles_witness :
  exists a', step (fetchProjects (init : @app (list toast)))
               (FetchDone 0 (Ok [mkProject "job-7" "talk.mp4" "" 3 "2026-11-01" Processing; mkProject "job-7" "talk.mp4" "" 3 "2026-11-01" Completed; mkProject "job-7" "talk.mp4" "" 3 "2026-11-01" Failed])) = Some a' /\
    projects a' = Some [mkProject "job-7" "talk.mp4" "" 3 "2026-11-01" Processing; mkProject "job-7" "talk.mp4" "" 3 "2026-11-01" Completed; mkProject "job-7" "talk.mp4" "" 3 "2026-11-01" Failed].
Proof.
  eexists. split; [reflexivity|].
  exact (proj2 (proj2 (fetch_settles (fetchProjects init) 0
                         (Ok [mkProject "job-7" "talk.mp4" "" 3 "2026-11-01" Processing; mkProject "job-7" "talk.mp4" "" 3 "2026-11-01" Completed; mkProject "job-7" "talk.mp4" "" 3 "2026-11-01" Failed]) _ eq_refl))).
Defined.

Lemma only_fetch_writes_projects_witness :
  exists i ps, FetchDone 0 (Ok [mkProject "job-7" "talk.mp4" "" 3 "2026-11-01" Failed]) = FetchDone i (Ok ps) /\ ps = [mkProject "job-7" "talk.mp4" "" 3 "2026-11-01" Failed].
Proof.
  destruct (only_fetch_writes_projects (fetchProjects (init : @app (list toast)))
              (FetchDone 0 (Ok [mkProject "job-7" "talk.mp4" "" 3 "2026-11-01" Failed])) _ eq_refl ltac:(discriminate))
    as (i & ps & Hx & Hp).
  exists i, ps. split; [exact Hx|]. simpl in Hp. congruence.
Defined.

Lemma reachable_sent_valid_witness :
  exists a, run (init : @app (list toast))
              [Control (Controls.Click "length"); Control (Controls.SlideLength 1 7); SubmitStart] = Some a /\
    sent_valid a.
Proof.
  eexists. split; [reflexivity|].
  apply (reachable_sent_valid [Control (Controls.Click "length"); Control (Controls.SlideLength 1 7); SubmitStart]).
  reflexivity.
Defined.


Lemma submit_ignores_file_witness :
  sent (submitGeneration (init : @app (list toast))) = [GenerateCuts (reqData Form.init)].
Proof.
  exact (proj1 (proj2 (submit_ignores_file (T:=list toast) init None))).
Defined.

Lemma selected_file_basename_witness :
  selectedFileLabel (Some ("/home/ada/videos" +++ String "/"%char "talk.mp4")) = "Selected file: talk.mp4".
Proof. exact (proj1 (selected_file_basename "/home/ada/videos" "talk.mp4" eq_refl)). Defined.

End GatewayWitnesses.
