(* ===== verification/Wire.v ===== *)
(** * The request on the wire ([App.tsx] 99-101)

    [invoke("generate_cuts", { reqData })] sends its arguments to the
    backend as JSON.  [JSON.stringify] writes an object's own properties
    in creation order and leaves out every property whose value is
    [undefined].  So a length read past the end of [videoLength] is not
    sent as a null: its key is missing.  [reqData_json] is the JSON form
    of the object literal of line 99, and [invoke_args] the argument
    object of line 101.

    The backend's command takes a [GenerationRequest] (spec, sections 3
    and 6).  [decode_request] models its decoder: it looks every field
    up by name, in any order, and refuses a missing field or a field of
    the wrong JSON type.  It is modelled from the spec.

    The theorems show four things.  Every request the UI can send has
    all five fields with their JSON types.  Decoding the JSON form
    gives the request back exactly when both lengths are present.  A
    request that lacks one fails to decode.  And, composed with the
    operations of [Gateway], every [generate_cuts] call a reachable
    state has sent is decoded by the backend into the request the form
    held. *)

From S2P Require Import Prelude Request Controls Notify ProjectCard Gateway.

Module Wire.

Local Set Warnings "-register-all".

Inductive json :=
  | JNull
  | JBool (b : bool)
  | JNum (z : Z)
  | JStr (s : string)
  | JArr (items : list json)
  | JObj (fields : list (string * json)).

(** A property of an object literal as [JSON.stringify] writes it:
    nothing for [undefined]. *)
Definition js_prop (key : string) (v : option json) : list (string * json) :=
  match v with
  | Some j => [(key, j)]
  | None => []
  end.

(** [reqData] as JSON, keys in the literal's order. *)
Definition reqData_json (r : Gen.GenShape) : json :=
  JObj (js_prop "captionFont" (Some (JStr (Gen.captionFont r))) ++
        js_prop "extraContext" (Some (JStr (Gen.extraContext r))) ++
        js_prop "maxLength" (JNum <$> Gen.maxLength r) ++
        js_prop "minLength" (JNum <$> Gen.minLength r) ++
        js_prop "quantity" (Some (JNum (Gen.quantity r)))).

(** The arguments of [invoke("generate_cuts", { reqData })]. *)
Definition invoke_args (r : Gen.GenShape) : json := JObj [("reqData", reqData_json r)].

(** Field lookup by name: the first field with that key. *)
Fixpoint field (key : string) (fs : list (string * json)) : option json :=
  match fs with
  | [] => None
  | (k, v) :: rest => if String.eqb k key then Some v else field key rest
  end.

Definition as_num (j : json) : option Z := match j with JNum z => Some z | _ => None end.
Definition as_str (j : json) : option string := match j with JStr s => Some s | _ => None end.

(** The backend's decoder of a [GenerationRequest]. *)
Definition decode_request (j : json) : option Gen.GenShape :=
  match j with
  | JObj fs =>
      font ← field "captionFont" fs ≫= as_str;
      ctx ← field "extraContext" fs ≫= as_str;
      hi ← field "maxLength" fs ≫= as_num;
      lo ← field "minLength" fs ≫= as_num;
      q ← field "quantity" fs ≫= as_num;
      Some (Gen.mkGenShape (Some lo) (Some hi) font ctx q)
  | _ => None
  end.

(** The decoder of the command's arguments. *)
Definition decode_args (j : json) : option Gen.GenShape :=
  match j with
  | JObj fs => field "reqData" fs ≫= decode_request
  | _ => None
  end.

End Wire.

Section WireTheorems.
Import Controls Wire.

(** With both lengths present the backend decodes the JSON form back
    into the request. *)
Lemma decode_invoke_args r lo hi :
  Gen.minLength r = Some lo -> Gen.maxLength r = Some hi -> decode_args (invoke_args r) = Some r.
Proof. destruct r as [lo' hi' font ctx q]; simpl. by intros -> ->. Qed.

(** C25: every request the control panel lets the user build is sent
    as a JSON object with exactly the five keys of the literal, in its
    order.  The font and context are strings, and both lengths and the
    count are numbers. *)
Theorem wire_shape es u :
  run init es = Some u ->
  exists lo hi, invoke_args (reqData (form u)) =
    JObj [("reqData", JObj [("captionFont", JStr (Form.captionFont (form u)));
                            ("extraContext", JStr (Form.context (form u)));
                            ("maxLength", JNum hi); ("minLength", JNum lo);
                            ("quantity", JNum (Form.videoCount (form u)))])] /\
    (20 <= lo <= hi)%Z /\ (hi <= 180)%Z.
Proof.
  intros Hrun. pose proof (run_form_ok init es u form_ok_init Hrun) as ((lo & hi & Hl & ? & ?) & _).
  exists lo, hi. rewrite (reqData_fields _ lo hi Hl). split; [done|lia].
Qed.

(** C26: round trip of the wire form.  Decoding the arguments gives the
    request back exactly when both lengths are present.  With a length
    missing ([videoLength] too short), its key is dropped from the JSON
    and the backend refuses the request. *)
Theorem wire_roundtrip r :
  decode_args (invoke_args r) = Some r <->
  is_Some (Gen.minLength r) /\ is_Some (Gen.maxLength r).
Proof.
  destruct r as [[lo|] [hi|] font ctx q]; simpl; split;
    try (intros [[? ?] [? ?]]; discriminate); try discriminate; try done.
Qed.

End WireTheorems.

Section WireBackend.
Import Notify Gateway Wire.
Context {T : Type} `{Toaster T}.

(** C29: the backend accepts every request the frontend sends.  In any
    state reachable from the initial one, every [generate_cuts] call in
    the log of sent commands decodes, on the backend's side, to exactly
    the request [submitGeneration] built: no key is missing and no
    value changes on the wire. *)
Theorem backend_accepts_sent xs a :
  run (init : @app T) xs = Some a ->
  forall r, GenerateCuts r ∈ sent a -> decode_args (invoke_args r) = Some r.
Proof.
  intros Hrun r Hr.
  assert (Hv : sent_valid a).
  { apply (run_sent_valid init xs a); [apply form_ok_init| |exact Hrun]. intros ? Hin. by apply elem_of_nil in Hin. }
  destruct (proj1 (valid_request_spec r) (Hv r Hr)) as (lo & hi & Hlo & Hhi & _).
  exact (decode_invoke_args r lo hi Hlo Hhi).
Qed.

End WireBackend.

Section WireWitnesses.
Import Controls Notify Wire.

Lemma wire_shape_witness :
  exists u, run init [Click "length"; SlideLength 1 60] = Some u /\
    exists lo hi, invoke_args (reqData (form u)) =
      JObj [("reqData", JObj [("captionFont", JStr "default"); ("extraContext", JStr "");
                              ("maxLength", JNum hi); ("minLength", JNum lo); ("quantity", JNum 12)])] /\
      (20 <= lo <= hi)%Z /\ (hi <= 180)%Z.
Proof.
  eexists. split; [reflexivity|].
  exact (wire_shape [Click "length"; SlideLength 1 60] _ eq_refl).
Defined.

(** The initial request survives the wire; a request whose range has one
    value does not. *)
Lemma wire_roundtrip_witness :
  decode_args (invoke_args (reqData Form.init)) = Some (reqData Form.init) /\
  decode_args (invoke_args (Gen.mkGenShape (Some 30%Z) None "default" "" 12%Z)) = None.
Proof.
  split.
  - apply wire_roundtrip. split; eexists; reflexivity.
  - reflexivity.
Defined.

(** Two submissions with different settings: both decode. *)
Lemma backend_accepts_sent_witness :
  exists a, Gateway.run (Gateway.init : @Gateway.app (list toast))
      [Gateway.SubmitStart; Gateway.Control (Click "length"); Gateway.Control (SlideLength 1 45);
       Gateway.SubmitStart] = Some a /\
    forall r, Gateway.GenerateCuts r ∈ Gateway.sent a -> decode_args (invoke_args r) = Some r.
Proof.
  eexists. split; [reflexivity|].
  apply (backend_accepts_sent [Gateway.SubmitStart; Gateway.Control (Click "length");
                               Gateway.Control (SlideLength 1 45); Gateway.SubmitStart]).
  reflexivity.
Defined.

End WireWitnesses.
