(* ===== verification/Store.v ===== *)
(** * The project store: abstract specification and refinement

    Sections 4.2 and 4.5 of the spec describe the project store by three
    observable states.  It is [Unloaded] before the first fetch
    resolves.  It is [Loaded ps] after a successful fetch, which
    replaces the snapshot wholesale.  It is [Stale ps] when the latest
    refresh failed after an earlier success, and then the previous
    snapshot is kept.  [StoreSpec.sstep] is that specification as a
    step relation.  [StoreSpec.view] is what a reader of the store sees.

    [sstep] is labelled by the outcome of the fetch that settles, so the
    specification's state after a sequence of outcomes is determined.
    The implementation is the [projects] hook of [PreviewOperations],
    driven by [Gateway.step].  The refinement theorem is a forward
    simulation.  Each step of the application is matched by the
    specification's steps on its fetch outcome, none for the other
    steps, keeping [projects] equal to the view of the specification's
    state.  So the hook shows exactly what the specification says after
    the outcomes the backend gave, in the order they settled.

    The spec also gives a project status a lifecycle: [processing]
    becomes [completed] or [failed], and never moves back.  The store
    replaces its snapshot wholesale with whichever response settles
    last and never checks this. *)

From S2P Require Import Prelude Request Controls Notify ProjectCard Gateway.

Module StoreSpec.
Import ProjectCard.

Inductive store :=
  | Unloaded
  | Loaded (ps : list Project)
  | Stale (ps : list Project).

Definition view (s : store) : option (list Project) :=
  match s with
  | Unloaded => None
  | Loaded ps | Stale ps => Some ps
  end.

(** A refresh, labelled by the outcome of the fetch: a success loads
    the fetched list wholesale; a failure keeps the snapshot, which
    becomes stale once loaded. *)
Inductive sstep : store -> outcome (list Project) -> store -> Prop :=
  | refresh_ok s ps : sstep s (Ok ps) (Loaded ps)
  | refresh_fail_unloaded e : sstep Unloaded (Err e) Unloaded
  | refresh_fail_loaded ps e : sstep (Loaded ps) (Err e) (Stale ps)
  | refresh_fail_stale ps e : sstep (Stale ps) (Err e) (Stale ps).

(** A sequence of refreshes, in the order their fetches settle. *)
Inductive ssteps : store -> list (outcome (list Project)) -> store -> Prop :=
  | ssteps_nil s : ssteps s [] s
  | ssteps_cons s o s1 os s2 : sstep s o s1 -> ssteps s1 os s2 -> ssteps s (o :: os) s2.

(** The status lifecycle of section 3: processing ends as completed or
    failed. *)
Inductive status_step : project_status -> project_status -> Prop :=
  | status_done : status_step Processing Completed
  | status_fail : status_step Processing Failed.

(** Two snapshots respect the lifecycle when every project present in
    both keeps its status or moves along [status_step]. *)
Definition lifecycle_ok (old new : list Project) : Prop :=
  forall p p', p ∈ old -> p' ∈ new -> id p = id p' ->
    status p = status p' \/ status_step (status p) (status p').

End StoreSpec.

Section StoreTheorems.
Import Notify ProjectCard Gateway StoreSpec.
Context {T : Type} `{Toaster T}.
Implicit Types (a : @app T).

(** The outcome a step feeds to the store: that of a settled fetch. *)
Definition fetch_outcome (x : act) : option (outcome (list Project)) :=
  match x with
  | FetchDone _ res => Some res
  | _ => None
  end.

(** The fetch outcomes of a trace, in the order they settle. *)
Fixpoint fetch_outcomes (xs : list act) : list (outcome (list Project)) :=
  match xs with
  | [] => []
  | x :: rest =>
      match fetch_outcome x with
      | Some o => o :: fetch_outcomes rest
      | None => fetch_outcomes rest
      end
  end.

(** The refinement relation: the hook holds the specification's view. *)
Definition store_rel a (s : store) : Prop := projects a = view s.

Lemma ssteps_app s os1 s1 os2 s2 :
  ssteps s os1 s1 -> ssteps s1 os2 s2 -> ssteps s (os1 ++ os2) s2.
Proof. induction 1; simpl; [done|]. intros. econstructor; eauto. Qed.

(** A failed refresh is a step of the specification that keeps the
    view. *)
Lemma refresh_fail_view s e : exists s', sstep s (Err e) s' /\ view s' = view s.
Proof. destruct s; eexists; split; [constructor| |constructor| |constructor|]; done. Qed.


(** C23: refinement of the store specification.  For every run of the
    application from its initial state, the specification run from
    [Unloaded] on the outcomes of the fetches that settled, in the order
    they settled, ends in a state whose view is exactly the [projects]
    hook: unloaded until a fetch succeeds, then the list of the last
    successful fetch, which later failures keep. *)
Theorem store_refinement xs a :
  run (init : @app T) xs = Some a ->
  exists s, ssteps Unloaded (fetch_outcomes xs) s /\ projects a = view s.
Proof.
  revert xs a.
  (* One application step is matched by the specification's steps on
     its fetch outcome (none or one). *)
  assert (Hsim : forall a x a' s, step a x = Some a' -> store_rel a s ->
      exists s', ssteps s (fetch_outcomes [x]) s' /\ store_rel a' s').
  { intros a x a' s.
    unfold store_rel. intros Hs Hr.
    destruct x; simpl in Hs; inv_guards; try (exists s; split; [constructor|done]).
    destruct res as [ps|e]; simpl.
    - exists (Loaded ps). split; [econstructor; [constructor|constructor]|done].
    - destruct (refresh_fail_view s e) as (s' & Hst & Hv).
      exists s'. split; [econstructor; [exact Hst|constructor]|]. by rewrite Hv. }
  assert (Hrun : forall a0 s0 xs a, store_rel a0 s0 -> run a0 xs = Some a ->
      exists s, ssteps s0 (fetch_outcomes xs) s /\ store_rel a s).
  { intros a0 s0 xs a.
    revert a0 s0. induction xs as [|y ys IH]; simpl; intros a0 s0 Hr Hrun.
    - simplify_eq. exists s0. split; [constructor|done].
    - destruct (step a0 y) as [a1|] eqn:Hs; [|discriminate].
      destruct (Hsim a0 y a1 s0 Hs Hr) as (s1 & Hst1 & Hr1).
      destruct (IH a1 s1 Hr1 Hrun) as (s2 & Hst2 & Hr2).
      exists s2. split; [|done].
      pose proof (ssteps_app _ _ _ _ _ Hst1 Hst2) as Hst. simpl in Hst.
      by destruct (fetch_outcome y). }
  intros xs a Hr. exact (Hrun init Unloaded xs a eq_refl Hr).
Qed.

End StoreTheorems.

Section StoreGap.
Import Notify ProjectCard Gateway StoreSpec.
Context {T : Type} `{Toaster T}.

(** C24: the store does not enforce the status lifecycle, and the last
    response to settle wins, not the last request sent.  When the mount
    effect runs twice (as React's StrictMode does in development; the
    entry point is not in the sources), two [projects] calls are in
    flight at once.  If the second call settles first with
    a project completed, and the first call settles after it with an
    older snapshot where the project is still processing, the older
    snapshot replaces the newer one.  The project is shown moving back,
    which the lifecycle of the spec forbids. *)
Theorem status_regression_shown p :
  status p = Completed ->
  let p' := mkProject (id p) (fileName p) (thumbnail p) (quantity p) (date p) Processing in
  exists a a', run (init : @app T) [FetchStart; FetchStart; FetchDone 1 (Ok [p])] = Some a /\
    run a [FetchDone 0 (Ok [p'])] = Some a' /\
    projects a = Some [p] /\ projects a' = Some [p'] /\ inflight a' = [] /\
    ~ lifecycle_ok [p] [p'].
Proof.
  intros Hp p'. do 2 eexists. split_and!; [reflexivity|reflexivity|done|done|done|].
  intros Hl. destruct (Hl p p') as [Hs|Hs]; [set_solver|set_solver|done| |].
  - rewrite Hp in Hs. discriminate.
  - rewrite Hp in Hs. inversion Hs.
Qed.

End StoreGap.

Section StoreWitnesses.
Import Notify ProjectCard Gateway StoreSpec.

(** A successful fetch followed by a failed one: the specification's
    run is [Unloaded], [Loaded], [Stale], and the hook still shows the
    list. *)
Lemma store_refinement_witness :
  exists a, run (init : @app (list toast))
      [FetchStart; FetchDone 0 (Ok [mkProject "job-7" "talk.mp4" "" 3 "2026-11-01" Processing]);
       FetchStart; FetchDone 0 (Err "timeout")] = Some a /\
    exists s, ssteps Unloaded [Ok [mkProject "job-7" "talk.mp4" "" 3 "2026-11-01" Processing]; Err "timeout"] s /\
      projects a = view s.
Proof.
  eexists. split; [reflexivity|].
  apply (store_refinement [FetchStart; FetchDone 0 (Ok [mkProject "job-7" "talk.mp4" "" 3 "2026-11-01" Processing]);
                           FetchStart; FetchDone 0 (Err "timeout")]).
  reflexivity.
Defined.

Lemma status_regression_shown_witness :
  exists a a', run (init : @app (list toast))
      [FetchStart; FetchStart; FetchDone 1 (Ok [mkProject "job-7" "talk.mp4" "" 3 "2026-11-01" Completed])] = Some a /\
    run a [FetchDone 0 (Ok [mkProject "job-7" "talk.mp4" "" 3 "2026-11-01" Processing])] = Some a' /\
    ~ lifecycle_ok [mkProject "job-7" "talk.mp4" "" 3 "2026-11-01" Completed]
                   [mkProject "job-7" "talk.mp4" "" 3 "2026-11-01" Processing].
Proof.
  destruct (status_regression_shown (T:=list toast) (mkProject "job-7" "talk.mp4" "" 3 "2026-11-01" Completed) eq_refl)
    as (a & a' & H1 & H2 & _ & _ & _ & Hn).
  exists a, a'. split_and!; assumption.
Defined.

End StoreWitnesses.
