(* ===== verification/App.v ===== *)
(** * The whole [App]: error subscription and operations together

    [App] ([App.tsx] 26-63) runs the error-listener effect and renders
    [OperationInitializer], [PreviewOperations] and one [<Toaster/>].
    All three raise their toasts into that one toaster.  The composed
    state holds the subscription's registry and effect instances beside
    the application state of [Gateway], which owns the shared toaster.
    A step is either a subscription step or an operation step, so any
    interleaving of backend events with user actions and call
    completions is a trace of [step]. *)

From S2P Require Import Prelude Request Controls Notify ProjectCard Subscription Gateway.

Module App.
Import Notify Subscription Gateway.

Inductive act :=
  | Sub (a : Subscription.act)
  | Op (x : Gateway.act).

Section Composed.
Context {T : Type} `{Toaster T}.

Record state := mkState {
  sub_next_id : N;
  sub_registry : list (N * nat);
  sub_effects : gmap nat effect;
  gw : @app T
}.

Definition init : state := mkState 0 [] ∅ Gateway.init.

(** The subscription's view of the state: its world, with the shared toaster. *)
Definition sub_world (s : state) : @world T :=
  mkWorld (sub_next_id s) (sub_registry s) (sub_effects s) (Gateway.notes (gw s)).

(** Write a world back: registry and effects, and the toaster into the
    application part. *)
Definition with_world (s : state) (w : @world T) : state :=
  let a := gw s in
  mkState (next_id w) (registry w) (effects w)
    (mkApp (ui a) (Subscription.notes w) (projects a) (sent a) (inflight a)).

Definition step (s : state) (x : act) : option state :=
  match x with
  | Sub a =>
      match Subscription.step (sub_world s) a with
      | Some w => Some (with_world s w)
      | None => None
      end
  | Op y =>
      match Gateway.step (gw s) y with
      | Some a => Some (mkState (sub_next_id s) (sub_registry s) (sub_effects s) a)
      | None => None
      end
  end.

Fixpoint run (s : state) (xs : list act) : option state :=
  match xs with
  | [] => Some s
  | x :: rest => match step s x with Some s' => run s' rest | None => None end
  end.

End Composed.

End App.

Section AppTheorems.
Import Notify Subscription Gateway App.
Context {T : Type} `{ToasterLaws T}.
Implicit Types (s : @state T).

Lemma submitSettled_shown r d (n : T) :
  shown (submitSettled r d n) = shown n ++ [match r with Ok _ => submitOkToast d | Err e => submitErrToast e d end].
Proof. destruct r; apply shown_push. Qed.

(** C22: a backend error event and the completion of a submission
    commute up to the order of their toasts.  Whichever happens first,
    the registry, the effect instances, the form, the project snapshot,
    the commands sent and the calls in flight end up the same.  The
    toaster gains exactly one toast per registered listener (with its
    id and the payload) and exactly the submission's toast (success or
    error, by the outcome), in the order the two steps ran, so the two
    lists are permutations of each other. *)
Theorem emit_submit_commute s i r d' p d :
  inflight (gw s) !! i = Some SubmitCall ->
  let L := (fun l => listenerToast l.1 p d) <$> sub_registry s in
  let t := match r with Ok _ => submitOkToast d' | Err e => submitErrToast e d' end in
  exists s1 s2, run s [Sub (Emit p d); Op (SubmitDone i r d')] = Some s1 /\
    run s [Op (SubmitDone i r d'); Sub (Emit p d)] = Some s2 /\
    sub_registry s1 = sub_registry s2 /\ sub_effects s1 = sub_effects s2 /\
    ui (gw s1) = ui (gw s2) /\ projects (gw s1) = projects (gw s2) /\
    sent (gw s1) = sent (gw s2) /\ inflight (gw s1) = inflight (gw s2) /\
    shown (Gateway.notes (gw s1)) = shown (Gateway.notes (gw s)) ++ L ++ [t] /\
    shown (Gateway.notes (gw s2)) = shown (Gateway.notes (gw s)) ++ [t] ++ L /\
    shown (Gateway.notes (gw s1)) ≡ₚ shown (Gateway.notes (gw s2)).
Proof.
  intros Hi L t. do 2 eexists.
  split; [cbn [run step]; simpl; rewrite Hi; reflexivity|].
  split; [cbn [run step]; simpl; rewrite Hi; reflexivity|].
  cbn [with_world gw sub_registry sub_effects ui projects sent inflight Gateway.notes].
  cbn [emit sub_world Subscription.notes Subscription.registry gw Gateway.notes sub_registry].
  unfold on_error. rewrite !submitSettled_shown, !foldl_push_shown, ?submitSettled_shown.
  rewrite <- !app_assoc. split_and!; try done.
  apply Permutation_app_head, Permutation_app_comm.
Qed.



End AppTheorems.

Section AppWitnesses.
Import Notify Subscription Gateway App.


(** An error event and a failed submission, from the state where the
    listener is registered and one submission is in flight. *)
Lemma emit_submit_commute_witness :
  exists s0, run (init : @state (list toast)) [Sub (Mount 0); Sub (Resolve 0); Op SubmitStart] = Some s0 /\
    exists s1 s2, run s0 [Sub (Emit "decode failure" "today"); Op (SubmitDone 0 (Err "timeout") "today")] = Some s1 /\
      run s0 [Op (SubmitDone 0 (Err "timeout") "today"); Sub (Emit "decode failure" "today")] = Some s2 /\
      shown (Gateway.notes (gw s1)) ≡ₚ shown (Gateway.notes (gw s2)).
Proof.
  eexists. split; [reflexivity|].
  match goal with |- exists s1 s2, run ?s0 _ = _ /\ _ =>
    destruct (emit_submit_commute s0 0 (Err "timeout") "today" "decode failure" "today" eq_refl)
      as (s1 & s2 & H1 & H2 & _ & _ & _ & _ & _ & _ & _ & _ & Hp) end.
  exists s1, s2. split_and!; assumption.
Defined.


End AppWitnesses.
