(* ===== verification/Dispatch.v ===== *)
(** * The notifications of the whole application

    The spec (4.4) describes one dispatcher for every notification.
    Each settled submission is notified exactly once, and each backend
    error event at most once.  The code has no dispatcher: the toasts
    are raised by the error listener of [App] and by [submitGeneration],
    into the one shared toaster.  This file counts the toasts of a run
    of [App.step] against those sources.

    [run_d] runs the whole application with the subscription steps
    restricted by [Lifecycle.disciplined].  Under that discipline the
    toaster shows, after any run, at least one toast per settled
    submission and at most one more per emitted event.  Without the
    discipline the upper bound fails: that is the StrictMode trace of
    [Subscription.strict_mode_duplicate]. *)

From S2P Require Import Prelude Request Controls Notify ProjectCard Subscription Lifecycle Gateway App.

Module Dispatch.
Import Notify Subscription Lifecycle Gateway App.

(** What the dispatcher of the spec counts. *)
Inductive source := SubmitOutcome | BackendEvent.

#[export] Instance source_eq_dec : EqDecision source.
Proof. solve_decision. Defined.

(** The source a step of the application is, if any. *)
Definition source_of (x : App.act) : option source :=
  match x with
  | Op (SubmitDone _ _ _) => Some SubmitOutcome
  | Sub (Emit _ _) => Some BackendEvent
  | _ => None
  end.

Definition count_src (src : source) (xs : list App.act) : nat :=
  length (filter (fun x => source_of x = Some src) xs).

Section Disciplined.
Context {T : Type} `{Toaster T}.

(** A step of the application that obeys the effect discipline. *)
Definition app_disciplined (s : @App.state T) (x : App.act) : bool :=
  match x with
  | Sub a => disciplined (sub_world s) a
  | Op _ => true
  end.

(** Runs whose subscription steps all obey the discipline. *)
Fixpoint run_d (s : @App.state T) (xs : list App.act) : option (@App.state T) :=
  match xs with
  | [] => Some s
  | x :: rest =>
      if app_disciplined s x
      then match App.step s x with Some s' => run_d s' rest | None => None end
      else None
  end.

(** The toasts on screen. *)
Definition toasts (s : @App.state T) : list toast := shown (Gateway.notes (gw s)).

End Disciplined.

End Dispatch.

Section DispatchTheorems.
Import Notify Subscription Lifecycle Gateway App Dispatch.
Context {T : Type} `{ToasterLaws T}.
Implicit Types (s : @App.state T).

Lemma sub_world_with_world s (w : @world T) : sub_world (with_world s w) = w.
Proof. by destruct w. Qed.

(** Only a settled submission changes the toaster of the operations:
    by exactly one toast. *)
Lemma gateway_step_notes (a : @app T) y a' :
  Gateway.step a y = Some a' ->
  match y with
  | SubmitDone _ _ _ => exists t, shown (Gateway.notes a') = shown (Gateway.notes a) ++ [t]
  | _ => Gateway.notes a' = Gateway.notes a
  end.
Proof.
  destruct y; simpl; intros Hs; inv_guards; simplify_eq; try done.
  destruct res; eexists; apply shown_push.
Qed.

(** Only an emitted event changes the toaster of the subscription. *)
Lemma sub_step_notes (w : @world T) a w' :
  Subscription.step w a = Some w' ->
  match a with
  | Emit _ _ => True
  | _ => Subscription.notes w' = Subscription.notes w
  end.
Proof. destruct a; simpl; intros Hs; inv_guards; by simplify_eq. Qed.

(** One disciplined step: the invariant of [Lifecycle] is kept, and
    the toasts grow by one for a settled submission, by at most one for
    an event, and not at all otherwise. *)
Lemma app_step_toasts s x s' :
  single (sub_world s) -> app_disciplined s x = true -> App.step s x = Some s' ->
  single (sub_world s') /\
  exists k, toasts s' = toasts s ++ k /\
    (source_of x = Some SubmitOutcome -> length k = 1%nat) /\
    (source_of x = Some BackendEvent -> (length k <= 1)%nat) /\
    (source_of x = None -> k = []).
Proof.
  intros Hs Hd Hst. destruct x as [a|y]; simpl in Hd, Hst.
  - destruct (Subscription.step (sub_world s) a) as [w|] eqn:Hw; [|discriminate]. simplify_eq.
    rewrite sub_world_with_world. split; [by eapply single_step|].
    unfold toasts. cbn [with_world gw Gateway.notes].
    pose proof (sub_step_notes _ _ _ Hw) as Hn. destruct a.
    1-3: exists []; rewrite app_nil_r, Hn; split_and!; done.
    simpl in Hw. simplify_eq.
    eexists. split; [unfold emit, on_error; apply foldl_push_shown|].
    split_and!; try discriminate. intros _. rewrite length_fmap. by apply single_registry_le1.
  - destruct (Gateway.step (gw s) y) as [a|] eqn:Hy; [|discriminate]. simplify_eq.
    split; [by apply (single_notes (sub_world s))|].
    unfold toasts. cbn [gw]. pose proof (gateway_step_notes _ _ _ Hy) as Hn.
    destruct y; try (exists []; rewrite app_nil_r, Hn; split_and!; done).
    destruct Hn as [t Ht]. exists [t]. split_and!; done.
Qed.

Lemma count_src_cons src x xs :
  count_src src (x :: xs) = ((if decide (source_of x = Some src) then 1 else 0) + count_src src xs)%nat.
Proof. unfold count_src. rewrite filter_cons. by case_decide. Qed.

Lemma run_d_toasts s xs s' :
  single (sub_world s) -> run_d s xs = Some s' ->
  exists k, toasts s' = toasts s ++ k /\
    (count_src SubmitOutcome xs <= length k <= count_src SubmitOutcome xs + count_src BackendEvent xs)%nat.
Proof.
  revert s. induction xs as [|x xs IH]; simpl; intros s Hs Hr.
  - simplify_eq. exists []. rewrite app_nil_r. split; [done|]. unfold count_src; simpl; lia.
  - destruct (app_disciplined s x) eqn:Hd; [|discriminate].
    destruct (App.step s x) as [s1|] eqn:Hst; [|discriminate].
    destruct (app_step_toasts s x s1 Hs Hd Hst) as (Hs1 & k1 & Hk1 & Hsub & Hev & Hnone).
    destruct (IH s1 Hs1 Hr) as (k2 & Hk2 & Hb).
    exists (k1 ++ k2). rewrite Hk2, Hk1, app_assoc. split; [done|].
    rewrite !count_src_cons, length_app.
    destruct (source_of x) as [[]|]; simpl.
    + rewrite (Hsub eq_refl). repeat case_decide; simplify_eq; lia.
    + pose proof (Hev eq_refl). repeat case_decide; simplify_eq; lia.
    + rewrite (Hnone eq_refl). repeat case_decide; simplify_eq; simpl; lia.
Qed.

(** C33: the notification accounting of the whole application.  Under
    the effect discipline, after any run from the initial state, the
    toaster shows at least one toast per settled submission and at
    most one more per emitted backend event: no source is notified
    twice and no settled submission goes unnotified. *)
Theorem toast_accounting xs s :
  run_d (App.init : @App.state T) xs = Some s ->
  (count_src SubmitOutcome xs <= length (toasts s) <=
     count_src SubmitOutcome xs + count_src BackendEvent xs)%nat.
Proof.
  intros Hr. destruct (run_d_toasts App.init xs s single_init Hr) as (k & Hk & Hb).
  rewrite Hk. unfold toasts. cbn [App.init gw Gateway.init Gateway.notes].
  rewrite shown_empty. simpl. exact Hb.
Qed.

End DispatchTheorems.

Section DispatchWitnesses.
Import Notify Subscription Lifecycle Gateway App Dispatch.

(** The listener is mounted and resolved, a submission is sent, an
    error event arrives, and the submission fails: two sources, two
    toasts. *)
Lemma toast_accounting_witness :
  exists s, run_d (App.init : @App.state (list toast))
      [Sub (Mount 0); Sub (Resolve 0); Op SubmitStart; Sub (Emit "decode failure" "today");
       Op (SubmitDone 0 (Err "timeout") "today")] = Some s /\
    length (toasts s) = 2%nat /\
    (count_src SubmitOutcome
       [Sub (Mount 0); Sub (Resolve 0); Op SubmitStart; Sub (Emit "decode failure" "today");
        Op (SubmitDone 0 (Err "timeout") "today")] <= length (toasts s) <=
     count_src SubmitOutcome
       [Sub (Mount 0); Sub (Resolve 0); Op SubmitStart; Sub (Emit "decode failure" "today");
        Op (SubmitDone 0 (Err "timeout") "today")] +
     count_src BackendEvent
       [Sub (Mount 0); Sub (Resolve 0); Op SubmitStart; Sub (Emit "decode failure" "today");
        Op (SubmitDone 0 (Err "timeout") "today")])%nat.
Proof.
  eexists. split; [vm_compute; reflexivity|]. split; [reflexivity|].
  apply toast_accounting. vm_compute. reflexivity.
Defined.

End DispatchWitnesses.
