(* ===== verification/FileDialog.v ===== *)
(** * The native file dialog and the selected file ([App.tsx] 84-96, 138-142)

    [handleButtonClick] awaits [open(...)] of Tauri's dialog plugin with
    the options of lines 86-93: one file ([multiple: false]), no
    directory, one filter named ["*"] with the extensions [mkv] and
    [mp4].  Then it stores the result with [setSelectedFile(file)], also
    when it is [null], so a cancelled dialog clears an earlier choice.

    The dialog is a library.  Its contract is in section 7 of the spec: a
    single path or null, filtered to the extensions.  [dialog_ok] states
    that contract.  The options are data the code passes, so they are
    translated from the code.  The theorem composes the contract with
    [Gateway.step] and the label under the picker. *)

From S2P Require Import Prelude Request Controls Notify ProjectCard Gateway.

Module FileDialog.

Record dialog_filter := mkFilter {
  filter_name : string;
  extensions : list string
}.

Record open_options := mkOpen {
  multiple : bool;
  directory : bool;
  filters : list dialog_filter
}.

(** The argument of [open] in [handleButtonClick] (86-93). *)
Definition pick_options : open_options :=
  mkOpen false false [mkFilter "*" ["mkv"; "mp4"]].

(** What [open] may resolve to for these options: [null] when the
    dialog is cancelled; for a single-file dialog, one path whose name
    ends with "." and an extension of one of the filters. *)
Definition dialog_ok (opts : open_options) (r : option string) : Prop :=
  match r with
  | None => True
  | Some p =>
      multiple opts = false /\ directory opts = false /\
      exists f e q, f ∈ filters opts /\ e ∈ extensions f /\ p = q +++ "." +++ e
  end.

End FileDialog.

Section FileDialogTheorems.
Import Notify Gateway FileDialog.
Context {T : Type} `{Toaster T}.

(** Splitting [q ++ s] when [s] has no separator: the last segment is
    the last segment of [q] followed by [s]. *)
Lemma split_on_app_nosep c q s :
  has_char c s = false ->
  exists h t, split_on c (q +++ s) = t ++ [h +++ s] /\ split_on c q = t ++ [h].
Proof.
  intros Hs. induction q as [|a r (h & t & IH1 & IH2)].
  - exists EmptyString, []. change (EmptyString +++ s) with s. by rewrite (split_on_no_sep c s Hs).
  - change (String a r +++ s) with (String a (r +++ s)). simpl. rewrite IH1, IH2.
    destruct (Ascii.eqb a c).
    + by exists h, (EmptyString :: t).
    + destruct t as [|x t].
      * by exists (String a h), [].
      * by exists h, (String a x :: t).
Qed.

(** The last segment of a path that ends with a "/"-free suffix ends
    with that suffix. *)
Lemma js_pop_split_suffix c q s :
  has_char c s = false -> exists h, js_pop (split_on c (q +++ s)) = Some (h +++ s).
Proof.
  intros Hs. destruct (split_on_app_nosep c q s Hs) as (h & t & -> & _).
  exists h. unfold js_pop. by rewrite last_app.
Qed.

Lemma append_nonempty q a s : js_truthy (q +++ String a s) = true.
Proof. by destruct q. Qed.

(** C34: the file picker, composed.  Whatever the dialog resolves to
    under its contract for the options the code passes, the click
    handler stores exactly that result, also [null], so a cancelled
    dialog clears an earlier choice.  The label under the picker then
    reads "No file selected" after a cancel.  Otherwise it reads
    "Selected file: " followed by the last segment of the path: a
    segment with no "/" that is either the whole path or what follows
    its last "/", and that ends with ".mkv" or ".mp4". *)
Theorem picked_file_label (a : @app T) r a' :
  dialog_ok pick_options r -> Gateway.step a (SelectFile r) = Some a' ->
  Form.selectedFile (form a') = r /\
  (r = None -> selectedFileLabel (Form.selectedFile (form a')) = "No file selected") /\
  (forall p, r = Some p -> exists seg base e, e ∈ ["mkv"; "mp4"] /\ seg = base +++ "." +++ e /\
     has_char "/"%char seg = false /\ (p = seg \/ exists dir, p = dir +++ String "/"%char seg) /\
     selectedFileLabel (Form.selectedFile (form a')) = "Selected file: " +++ seg).
Proof.
  intros Hd Hs. simpl in Hs. simplify_eq. split; [done|]. split; [by intros ->|].
  intros p ->. destruct Hd as (_ & _ & f & e & q & Hf & He & ->).
  apply list_elem_of_singleton in Hf as ->. simpl in He.
  assert (Hno : has_char "/"%char ("." +++ e) = false)
    by (apply list_elem_of_In in He; destruct He as [<-|[<-|[]]]; reflexivity).
  destruct (js_pop_split_suffix "/"%char q ("." +++ e) Hno) as (h & Hh).
  destruct (split_on_last "/"%char (q +++ "." +++ e)) as (t & seg & Hsplit & Hseg & Hp).
  assert (seg = h +++ "." +++ e) as Heq.
  { unfold js_pop in Hh. rewrite Hsplit, last_snoc in Hh. by simplify_eq. }
  exists seg, h, e. split_and!; [exact He|exact Heq|exact Hseg| |].
  - destruct Hp as [[_ Hp]|[_ Hp]]; [left; exact Hp|right; exact Hp].
  - simpl. change ("." +++ e) with (String "."%char e) in Hsplit |- *.
    rewrite append_nonempty. unfold js_pop. rewrite Hsplit, last_snoc. done.
Qed.

End FileDialogTheorems.

Section FileDialogWitnesses.
Import Notify Gateway FileDialog.

(** Picking /home/ada/videos/talk.mp4 from the initial state. *)
Lemma picked_file_label_witness :
  dialog_ok pick_options (Some "/home/ada/videos/talk.mp4") /\
  exists a', Gateway.step (Gateway.init : @app (list toast)) (SelectFile (Some "/home/ada/videos/talk.mp4")) = Some a' /\
    exists seg base e, e ∈ ["mkv"; "mp4"] /\ seg = base +++ "." +++ e /\
      has_char "/"%char seg = false /\
      ("/home/ada/videos/talk.mp4" = seg \/ exists dir, "/home/ada/videos/talk.mp4" = dir +++ String "/"%char seg) /\
      selectedFileLabel (Form.selectedFile (form a')) = "Selected file: " +++ seg.
Proof.
  assert (Hd : dialog_ok pick_options (Some "/home/ada/videos/talk.mp4")).
  { split_and!; [reflexivity|reflexivity|].
    exists (mkFilter "*" ["mkv"; "mp4"]), "mp4", "/home/ada/videos/talk".
    split_and!; [left|right; left|reflexivity]. }
  split; [exact Hd|]. eexists. split; [reflexivity|].
  exact (proj2 (proj2 (picked_file_label Gateway.init _ _ Hd eq_refl)) _ eq_refl).
Defined.

End FileDialogWitnesses.
