(* ===== verification/Layout.v ===== *)
(** * The layout of [App] and its [Header] ([App.tsx] 52-74)

    [App] renders a grid with four children, in this order: [Header],
    [OperationInitializer], [PreviewOperations] and the [Toaster].
    [Header] (67-74) is a title and a menu button with no [onClick], so
    no event of it changes any state.  The model keeps what the children
    show that depends on state: the file label of the picker, the
    scroll area of the project list with its relative dates, and the
    toasts on screen.

    React renders the tree as a whole.  A throw in the render of one
    child, with no error boundary above it, unmounts the whole tree.
    So [render_app] fails when the project list fails, and the header,
    the form and the toaster go with it. *)

From S2P Require Import Prelude Request Controls Notify ProjectCard RelativeDate Subscription Gateway App.

Module Layout.
Import Notify ProjectCard RelativeDate Gateway App.

(** [Header]: the title and the menu button's click handler, which the
    code does not set. *)
Record header := mkHeader {
  title : string;
  menu_onClick : option unit
}.

Definition Header : header := mkHeader "Diva " None.

(** The children of [App]'s grid, with what each shows. *)
Inductive child :=
  | CHeader (h : header)
  | COperations (file_label : string)
  | CPreview (v : dated_view)
  | CToaster (on_screen : list toast).

Section Render.
Context {T : Type} `{Toaster T}.
Variable calendar_months : Z -> Z -> Z.
Variable parse_date : string -> option Z.

(** [App]'s render (52-62) on the composed state at time [now]. *)
Definition render_app (now : Z) (s : @App.state T) : outcome (list child) :=
  match preview_dated calendar_months parse_date now (projects (gw s)) with
  | Ok v =>
      Ok [CHeader Header;
          COperations (selectedFileLabel (Form.selectedFile (Gateway.form (gw s))));
          CPreview v;
          CToaster (shown (Gateway.notes (gw s)))]
  | Err e => Err e
  end.

End Render.

End Layout.

Section LayoutTheorems.
Import Notify ProjectCard RelativeDate Gateway App Layout.
Context {T : Type} `{Toaster T}.
Context (calendar_months : Z -> Z -> Z) (parse_date : string -> option Z).

(** The whole application goes blank, header included, exactly when a
    project of the snapshot has a date that does not parse; otherwise
    the header is its first child. *)
Lemma render_app_blank now (s : @App.state T) ps :
  projects (gw s) = Some ps ->
  (render_app calendar_months parse_date now s = Err "Invalid time value" <->
     Exists (fun p => parse_date (date p) = None) ps) /\
  (forall cs, render_app calendar_months parse_date now s = Ok cs ->
     head cs = Some (CHeader Header)).
Proof.
  intros Hp. unfold render_app, preview_dated. rewrite Hp.
  destruct (render_all _ _ now ps) as [cs|e] eqn:Hr; split.
  - split; [discriminate|]. intros Hx.
    assert (render_all calendar_months parse_date now ps = Err "Invalid time value") as Herr
      by (apply render_all_err; auto). congruence.
  - by intros ? [= <-].
  - apply render_all_err in Hr as [-> Hx]. by split.
  - discriminate.
Qed.

End LayoutTheorems.
